(** * copilot-terminal-assistant: token lifecycle and session context

    A shallow embedding of the TypeScript sources
    - [storage.ts]  (token file: saveTokens, getToken, getCopilotToken, ...)
    - [session.ts]  (session log: addSessionEntry, getSessionContext, ...)
    - [auth.ts]     (device flow: pollForToken)
    - [copilot.ts]  (token broker and command suggestion)
    together with the properties that the specification states about them.

    Conventions of the embedding.
    - A JavaScript string is a [string]; one [ascii] stands for one UTF-16
      code unit (of those below 256), so [String.length] is [.length] and
      [substring 0 n] is [.substring(0, n)].
    - A JavaScript number that holds a time or a count is a [Z]
      (milliseconds since the epoch for [Date.now()] and [Date] values).
    - An optional field or argument ([x?: T], possibly [undefined]) is an
      [option T]; [JSON.stringify] drops [undefined] fields, so a field set
      to [undefined] and an absent field are both [None].
    - The file system is reliable: the [try]/[catch] blocks that only guard
      against a failing [fs] primitive are not modelled.  What is modelled
      of a file is whether it exists and whether it parses.
    - Output on the console ([console.error], [DEBUG] logging) is dropped. *)

From Stdlib Require Import ZArith String Ascii List Bool Lia.
From stdpp Require Import base option list strings pretty gmap.

Local Open Scope string_scope.
Local Open Scope Z_scope.

(** ** JavaScript values: truthiness, dates, string helpers *)
Module Js.

(** [if (s)] on a string: the empty string is falsy. *)
Definition truthy (s : string) : bool := negb (String.eqb s "").

(** [if (x)] on an optional string: [undefined] and [""] are falsy. *)
Definition truthy_opt (o : option string) : bool :=
  match o with
  | Some s => truthy s
  | None => false
  end.

(** A [Date] object: its time value in milliseconds, or [None] for an
    Invalid Date (time value NaN). *)
Definition Date : Type := option Z.

(** [new Date(ms)] for an integral [ms]: TimeClip makes the date invalid
    beyond 8.64e15 ms from the epoch. *)
Definition date_of_millis (ms : Z) : Date :=
  if Z.abs ms <=? 8640000000000000 then Some ms else None.

(** [new Date(s)] parses a date string; the parser is the host's.  It is
    taken as an interface: [None] is an Invalid Date. *)
Class DateParser := date_parse : string -> Date.

(** [d > now] where [now] is a valid date: both sides are converted to
    numbers, and every comparison with NaN is false. *)
Definition date_gt (d : Date) (now : Z) : bool :=
  match d with
  | Some ms => now <? ms
  | None => false
  end.

(** [s.includes(needle)]. *)
Fixpoint includes (s needle : string) : bool :=
  String.prefix needle s ||
  match s with
  | EmptyString => false
  | String _ s' => includes s' needle
  end.

(** White space removed by [trim]: the code units below 256 among
    WhiteSpace and LineTerminator, which are TAB, LF, VT, FF, CR (9 to
    13), SP (32) and the no-break space (160). *)
Definition is_space (c : ascii) : bool :=
  let n := nat_of_ascii c in
  ((9 <=? n) && (n <=? 13))%nat || (n =? 32)%nat || (n =? 160)%nat.

Fixpoint trimStart (s : string) : string :=
  match s with
  | String c s' => if is_space c then trimStart s' else s
  | EmptyString => EmptyString
  end.

Fixpoint trimEnd (s : string) : string :=
  match s with
  | String c s' =>
      match trimEnd s' with
      | EmptyString => if is_space c then EmptyString else String c EmptyString
      | t => String c t
      end
  | EmptyString => EmptyString
  end.

(** [s.trim()]. *)
Definition trim (s : string) : string := trimEnd (trimStart s).

(** [s.replace(/\n/g, by)]: every line feed is replaced. *)
Fixpoint replace_newlines (by_ : string) (s : string) : string :=
  match s with
  | String c s' =>
      if Ascii.eqb c "010"%char
      then by_ ++ replace_newlines by_ s'
      else String c (replace_newlines by_ s')
  | EmptyString => EmptyString
  end.

(** [arr.slice(start)] for an integral [start]: a negative start counts
    from the end, and [-0] is [0]. *)
Definition slice {A} (start : Z) (l : list A) : list A :=
  let len := Z.of_nat (length l) in
  let k := if start <? 0 then Z.max (len + start) 0 else Z.min start len in
  drop (Z.to_nat k) l.

End Js.

(** ** storage.ts: the token file *)
Module Storage.
Import Js.

(** [copilotTokenExpiresAt] is declared a string, but the reader accepts a
    number too (epoch seconds). *)
Inductive Expiry :=
| ExpiryString (s : string)
| ExpiryNumber (n : Z).

(** [interface TokenStorage].  A parsed file may lack any of the keys,
    and may have keys that the interface does not declare, which the
    object spread and [JSON.stringify] carry along. *)
Record TokenStorage := mkTokenStorage {
  githubToken : option string;
  copilotToken : option string;
  copilotTokenExpiresAt : option Expiry;
  otherKeys : gmap string string
}.

(** What [JSON.parse(fs.readFileSync(TOKEN_FILE))] can find in an
    existing file. *)
Inductive TokenFile :=
| Unparseable (raw : string)
| Json (data : TokenStorage).

(** The state of [TOKEN_FILE]: [None] when [fs.existsSync] is false. *)
Definition Disk : Type := option TokenFile.

Definition expiry_truthy (e : Expiry) : bool :=
  match e with
  | ExpiryString s => truthy s
  | ExpiryNumber n => negb (n =? 0)
  end.

(** [saveTokens(githubToken, copilotToken?, expiresAt?)] *)
Definition saveTokens (githubToken : string) (copilotToken : option string)
    (expiresAt : option Expiry) (disk : Disk) : Disk :=
  (* let tokenData = { githubToken }, or a copy of the existing data *)
  let tokenData :=
    match disk with
    | Some (Json existingData) => existingData
    | Some (Unparseable _) | None => mkTokenStorage (Some githubToken) None None ∅
    end in
  (* tokenData.githubToken = githubToken *)
  let tokenData :=
    mkTokenStorage (Some githubToken) (Storage.copilotToken tokenData)
                   (copilotTokenExpiresAt tokenData) (otherKeys tokenData) in
  (* if (copilotToken) { ... } *)
  let tokenData :=
    if truthy_opt copilotToken
    then mkTokenStorage (Storage.githubToken tokenData) copilotToken expiresAt
                        (otherKeys tokenData)
    else tokenData in
  Some (Json tokenData).

(** [saveToken(token)] *)
Definition saveToken (token : string) (disk : Disk) : Disk :=
  saveTokens token None None disk.

(** [getToken()]: [data.githubToken || null] *)
Definition getToken (disk : Disk) : option string :=
  match disk with
  | Some (Json data) =>
      if truthy_opt (githubToken data) then githubToken data else None
  | Some (Unparseable _) => None
  | None => None
  end.

(** [saveCopilotToken(token, expiresAt)] *)
Definition saveCopilotToken (token : string) (expiresAt : Expiry)
    (disk : Disk) : Disk :=
  match getToken disk with
  | Some githubToken => saveTokens githubToken (Some token) (Some expiresAt) disk
  | None => disk
  end.

(** The conversion inside [getCopilotToken()]: a string goes through
    [new Date(s)], a number is taken as seconds. *)
Definition expiry_date `{DateParser} (e : Expiry) : Date :=
  match e with
  | ExpiryString s => date_parse s
  | ExpiryNumber n => date_of_millis (n * 1000)
  end.

(** [getCopilotToken()]: the cached token and its expiry date, or [null]. *)
Definition getCopilotToken `{DateParser} (disk : Disk) : option (string * Date) :=
  match disk with
  | Some (Json data) =>
      match copilotToken data, copilotTokenExpiresAt data with
      | Some token, Some e =>
          if truthy token && expiry_truthy e
          then Some (token, expiry_date e)
          else None
      | _, _ => None
      end
  | Some (Unparseable _) => None
  | None => None
  end.

(** [clearToken()] *)
Definition clearToken (disk : Disk) : Disk := None.

(** [clearCopilotToken()] *)
Definition clearCopilotToken (disk : Disk) : Disk :=
  match disk with
  | Some (Json data) =>
      Some (Json (mkTokenStorage (githubToken data) None None (otherKeys data)))
  | Some (Unparseable raw) => Some (Unparseable raw)
  | None => None
  end.

End Storage.

(** ** session.ts: the session log *)
Module Session.
Import Js.

(** [interface SessionEntry] *)
Record SessionEntry := mkEntry {
  timestamp : Z;
  prompt : string;
  command : option string;
  executed : option bool;
  output : option string
}.

(** [interface SessionData] *)
Record SessionData := mkSession {
  id : string;
  createdAt : Z;
  lastUpdatedAt : Z;
  entries : list SessionEntry
}.

(** What the session functions read and write outside their arguments:
    the wall clock, as the sequence of values that successive calls of
    [Date.now()] return, and the files of [SESSIONS_DIR], by session id. *)
Record Sys := mkSys {
  clock : nat -> Z;
  ticks : nat;
  sessionFiles : gmap string SessionData
}.

(** State passing over [Sys]. *)
Definition M (A : Type) : Type := Sys -> A * Sys.

Definition ret {A} (a : A) : M A := fun sys => (a, sys).

Definition bind {A B} (c : M A) (k : A -> M B) : M B :=
  fun sys => let (a, sys') := c sys in k a sys'.

Notation "'do' x <- c ; k" := (bind c (fun x => k))
  (at level 10, x name, c at level 100, k at level 200).

(** [Date.now()] *)
Definition Date_now : M Z :=
  fun sys => (clock sys (ticks sys),
              mkSys (clock sys) (S (ticks sys)) (sessionFiles sys)).

(** [fs.writeFileSync(path.join(SESSIONS_DIR, id + '.json'), JSON.stringify(session))] *)
Definition writeSessionFile (session : SessionData) : M unit :=
  fun sys => (tt, mkSys (clock sys) (ticks sys)
                        (<[id session := session]> (sessionFiles sys))).

(** [createSession()]; the identifier drawn by [uuidv4()] is an argument. *)
Definition createSession (sessionId : string) : M SessionData :=
  do now <- Date_now;
  let session := mkSession sessionId now now [] in
  do _ <- writeSessionFile session;
  ret session.

(** [loadSession(sessionId)] *)
Definition loadSession (sessionId : string) : M (option SessionData) :=
  fun sys => (sessionFiles sys !! sessionId, sys).

(** [saveSession(session)].  The source stamps [session.lastUpdatedAt] on
    the caller's object; the stamped session is returned here. *)
Definition saveSession (session : SessionData) : M SessionData :=
  do now <- Date_now;
  let session := mkSession (id session) (createdAt session) now (entries session) in
  do _ <- writeSessionFile session;
  ret session.

(** [addSessionEntry(session, prompt, command?, executed = false)] *)
Definition addSessionEntry (session : SessionData) (prompt : string)
    (command : option string) (executed : option bool) : M SessionData :=
  let executed := default false executed in
  do now <- Date_now;
  let entry := mkEntry now prompt command (Some executed) None in
  (* session.entries.push(entry); session.lastUpdatedAt = entry.timestamp *)
  let session := mkSession (id session) (createdAt session)
                           (timestamp entry) (entries session ++ [entry]) in
  (* saveSession(session); return session: the object as saved *)
  saveSession session.

(** The assignments to [lastEntry] in [updateLastSessionEntry]. *)
Definition updateEntry (command : option string) (executed : bool)
    (output : option string) (lastEntry : SessionEntry) : SessionEntry :=
  mkEntry (timestamp lastEntry) (prompt lastEntry)
    (match command with Some c => Some c | None => Session.command lastEntry end)
    (Some executed)
    (match output with Some o => Some o | None => Session.output lastEntry end).

(** [updateLastSessionEntry(session, command?, executed = false, output?)] *)
Definition updateLastSessionEntry (session : SessionData)
    (command : option string) (executed : option bool)
    (output : option string) : M SessionData :=
  let executed := default false executed in
  if (0 <? length (entries session))%nat then
    let entries' :=
      alter (updateEntry command executed output)
            (length (entries session) - 1)%nat (entries session) in
    do now <- Date_now;
    let session := mkSession (id session) (createdAt session) now entries' in
    (* saveSession(session); return session: the object as saved *)
    saveSession session
  else ret session.

Definition nl : string := String "010"%char EmptyString.

Definition maxOutputLength : nat := 500.

(** The [limitedOutput] of an entry's output. *)
Definition limitedOutput (output : string) : string :=
  if (maxOutputLength <? String.length output)%nat
  then substring 0 maxOutputLength output ++ "... [output truncated]"
  else output.

(** The text that one round of the [forEach] callback appends to
    [context]. *)
Definition entryBlock (entry : SessionEntry) (index : nat) : string :=
  ("[" ++ pretty (index + 1)%nat ++ "] User: " ++ prompt entry ++ nl)
  ++ (if truthy_opt (command entry) then
        ("    Command: " ++ default "" (command entry) ++ nl)
        ++ ("    Executed: "
            ++ (if default false (executed entry) then "Yes" else "No") ++ nl)
        ++ (if truthy_opt (output entry) then
              "    Output: "
              ++ replace_newlines (nl ++ "      ")
                   (limitedOutput (default "" (output entry)))
              ++ nl
            else "")
      else "")
  ++ nl.

(** [arr.forEach((x, index) => ...)] from position [index] on, threading
    the variable that the callback updates. *)
Fixpoint forEach {A St} (f : St -> A -> nat -> St) (arr : list A) (index : nat)
    (s : St) : St :=
  match arr with
  | [] => s
  | x :: arr' => forEach f arr' (S index) (f s x index)
  end.

(** [getSessionContext(session, limit = 5)] *)
Definition getSessionContext (session : SessionData) (limit : option Z) : string :=
  let limit := default 5 limit in
  let recentEntries := slice (- limit) (entries session) in
  forEach (fun context entry index => context ++ entryBlock entry index)
          recentEntries 0%nat ("Previous commands:" ++ nl ++ nl).

(** A call of the session log, for sequences of calls. *)
Inductive Call :=
| Append (prompt : string) (command : option string) (executed : option bool)
| UpdateLast (command : option string) (executed : option bool)
             (output : option string).

Definition call (c : Call) (session : SessionData) : M SessionData :=
  match c with
  | Append p cmd ex => addSessionEntry session p cmd ex
  | UpdateLast cmd ex out => updateLastSessionEntry session cmd ex out
  end.

Fixpoint calls (cs : list Call) (session : SessionData) : M SessionData :=
  match cs with
  | [] => ret session
  | c :: cs' => do session' <- call c session; calls cs' session'
  end.

End Session.

(** ** auth.ts: polling of the device flow *)
Module Auth.
Import Js.

(** What one call of the token-exchange endpoint can come to. *)
Inductive Exchange :=
| FetchRejects (message : string)            (* fetch throws *)
| NotOk (status : Z) (statusText : string)   (* !response.ok *)
| JsonRejects (message : string)             (* response.json() throws *)
| Data (access_token : option string).       (* the parsed TokenResponse *)

(** What [pollForToken] does to the outside, in order. *)
Inductive Event :=
| Fetch (device_code : string)   (* POST /login/oauth/access_token *)
| Sleep (ms : Z).                (* setTimeout(resolve, ms), awaited *)

(** One round of the [while (true)] body on the exchange [r]: the events
    of the round and, when the round returns, the value returned. *)
Definition round (deviceCode : string) (pollInterval : Z) (r : Exchange)
  : list Event * option string :=
  match r with
  | Data access_token =>
      if truthy_opt access_token
      then ([Fetch deviceCode], access_token)
      else ([Fetch deviceCode; Sleep pollInterval], None)
  (* the three throwing cases end in the catch block, which waits *)
  | FetchRejects _ | NotOk _ _ | JsonRejects _ =>
      ([Fetch deviceCode; Sleep pollInterval], None)
  end.

(** The loop, from attempt number [attempt] on; [server k] is the outcome
    of the [k]-th exchange.  [fuel] bounds the rounds that are unfolded:
    [None] with the trace so far when it runs out. *)
Fixpoint pollLoop (fuel : nat) (server : nat -> Exchange) (attempt : nat)
    (deviceCode : string) (pollInterval : Z) : list Event * option string :=
  match fuel with
  | O => ([], None)
  | S fuel' =>
      match round deviceCode pollInterval (server attempt) with
      | (events, Some token) => (events, Some token)
      | (events, None) =>
          let (events', result) :=
            pollLoop fuel' server (S attempt) deviceCode pollInterval in
          ((events ++ events')%list, result)
      end
  end.

(** [pollForToken(deviceCode, interval)] *)
Definition pollForToken (fuel : nat) (server : nat -> Exchange)
    (deviceCode : string) (interval : Z) : list Event * option string :=
  let pollInterval := interval * 1000 in
  pollLoop fuel server 0%nat deviceCode pollInterval.

End Auth.

(** ** copilot.ts: the token broker and the suggestion service *)
Module Copilot.
Import Js.

Inductive Role := system | user.

(** [interface Message] *)
Record Message := mkMessage { role : Role; content : string }.

(** [interface TokenResponse]; [expires_at] is declared a string and is
    passed on as it comes. *)
Record TokenResponse := mkTokenResponse {
  token : string;
  expires_at : Storage.Expiry
}.

(** [interface CopilotRequest] *)
Record CopilotRequest := mkRequest {
  intent : bool;
  model : string;
  temperature : Z;
  top_p : Z;
  n : Z;
  stream : bool;
  messages : list Message
}.

(** [interface CopilotResponse]: the [message.content] of each choice. *)
Record CopilotResponse := mkResponse { choices : list string }.

(** [class TokenExpiredError extends Error], and plain [Error]. *)
Inductive TokenType := github | copilot.

Inductive JsError :=
| TokenExpiredError (message : string) (tokenType : TokenType)
| Error (message : string).

(** What [fetch] can come to: it throws, or it resolves to a response
    with a status, whose [json()] gives the data or throws.  The text of
    a response outside 200..299 is read for the [DEBUG] log only. *)
Inductive Body (A : Type) :=
| JsonRejects (message : string)
| JsonData (data : A).
Arguments JsonRejects {A} message.
Arguments JsonData {A} data.

Inductive Fetched (A : Type) :=
| FetchRejects (message : string)
| Response (status : Z) (body : Body A).
Arguments FetchRejects {A} message.
Arguments Response {A} status body.

(** The two endpoints, as functions of what is sent to them. *)
Record Network := mkNetwork {
  tokenEndpoint : string -> Fetched TokenResponse;
  completionEndpoint : string -> CopilotRequest -> Fetched CopilotResponse
}.

(** An HTTP call that was issued. *)
Inductive HttpCall :=
| GetToken (accessToken : string)
| PostCompletion (copilotToken : string) (request : CopilotRequest).

(** The state around a call: the token file, the time that [new Date()]
    reads, and the HTTP calls issued so far, oldest first. *)
Record World := mkWorld {
  disk : Storage.Disk;
  now : Z;
  sent : list HttpCall
}.

Inductive Outcome (A : Type) :=
| Returns (a : A)
| Throws (e : JsError).
Arguments Returns {A} a.
Arguments Throws {A} e.

(** State passing over [World], with exceptions. *)
Definition M (A : Type) : Type := World -> Outcome A * World.

Definition ret {A} (a : A) : M A := fun w => (Returns a, w).

Definition throw {A} (e : JsError) : M A := fun w => (Throws e, w).

Definition bind {A B} (c : M A) (k : A -> M B) : M B :=
  fun w =>
    match c w with
    | (Returns a, w') => k a w'
    | (Throws e, w') => (Throws e, w')
    end.

(** [try { c } catch (error) { handler }] *)
Definition try_catch {A} (c : M A) (handler : JsError -> M A) : M A :=
  fun w =>
    match c w with
    | (Returns a, w') => (Returns a, w')
    | (Throws e, w') => handler e w'
    end.

Notation "'do' x <- c ; k" := (bind c (fun x => k))
  (at level 10, x name, c at level 100, k at level 200).

(** Lifting of the storage functions to [World]. *)
Definition onDisk (f : Storage.Disk -> Storage.Disk) : M unit :=
  fun w => (Returns tt, mkWorld (f (disk w)) (now w) (sent w)).

Definition getStoredCopilotToken `{DateParser} : M (option (string * Date)) :=
  fun w => (Returns (Storage.getCopilotToken (disk w)), w).

Definition saveCopilotToken (token : string) (expiresAt : Storage.Expiry) : M unit :=
  onDisk (Storage.saveCopilotToken token expiresAt).

Definition clearCopilotToken : M unit := onDisk Storage.clearCopilotToken.

(** [new Date()] *)
Definition newDate : M Z := fun w => (Returns (now w), w).

(** [await fetch(url, ...)]: the call is issued, then [fetch] throws or
    gives the response. *)
Definition fetch {A} (call : HttpCall) (result : Fetched A) : M (Z * Body A) :=
  fun w =>
    let w' := mkWorld (disk w) (now w) (sent w ++ [call])%list in
    match result with
    | FetchRejects message => (Throws (Error message), w')
    | Response status body => (Returns (status, body), w')
    end.

(** [await response.json()] *)
Definition json {A} (body : Body A) : M A :=
  match body with
  | JsonRejects message => throw (Error message)
  | JsonData data => ret data
  end.

(** [response.ok] *)
Definition ok (status : Z) : bool := (200 <=? status) && (status <=? 299).

(** The second half of [getCopilotToken(accessToken)]: no valid token in
    storage, fetch a new one. *)
Definition fetchNewToken (net : Network) (accessToken : string) : M string :=
  do response <- fetch (GetToken accessToken) (tokenEndpoint net accessToken);
  let (status, body) := response in
  if negb (ok status) then
    if (status =? 401) || (status =? 403) then
      do _ <- clearCopilotToken;
      throw (TokenExpiredError "GitHub access token expired or invalid" github)
    else if status =? 429 then
      throw (Error "Rate limit exceeded. Please try again later.")
    else if 500 <=? status then
      throw (Error "GitHub service is currently unavailable. Please try again later.")
    else
      throw (Error "Unable to authenticate with GitHub Copilot.")
  else
    do data <- json body;
    do _ <- saveCopilotToken (token data) (expires_at data);
    ret (token data).

(** [getCopilotToken(accessToken)] *)
Definition getCopilotToken `{DateParser} (net : Network) (accessToken : string)
  : M string :=
  do storedToken <- getStoredCopilotToken;
  do today <- newDate;
  match storedToken with
  | Some (token, expiresAt) =>
      if date_gt expiresAt today then ret token
      else fetchNewToken net accessToken
  | None => fetchNewToken net accessToken
  end.

(** The [messages] array that [getCommandSuggestion] prepares. *)
Definition prepareMessages (prompt : string) (sessionContext : option string)
  : list Message :=
  let messages := [] in
  let messages :=
    if truthy_opt sessionContext then
      (messages ++ [mkMessage system
         (default "" sessionContext ++ Session.nl ++ Session.nl
          ++ "You are a command-line assistant. Generate accurate terminal commands based on user requests. Consider the context of previous commands when applicable.")])%list
    else messages in
  (messages ++ [mkMessage user
     ("Generate a terminal command for: " ++ prompt ++ Session.nl
      ++ "Provide only the command, no explanation.")])%list.

(** The [request] object that [getCommandSuggestion] builds. *)
Definition requestFor (prompt : string) (sessionContext : option string)
  : CopilotRequest :=
  let messages := prepareMessages prompt sessionContext in
  mkRequest false "claude-3.5-sonnet" 0 1 1 false messages.

(** The [try] block of [getCommandSuggestion]. *)
Definition suggest `{DateParser} (net : Network) (prompt accessToken : string)
    (sessionContext : option string) : M string :=
  do copilotToken <- getCopilotToken net accessToken;
  let request := requestFor prompt sessionContext in
  do response <- fetch (PostCompletion copilotToken request)
                       (completionEndpoint net copilotToken request);
  let (status, body) := response in
  if negb (ok status) then
    if (status =? 401) || (status =? 403) then
      do _ <- clearCopilotToken;
      throw (TokenExpiredError "Copilot token expired or invalid" copilot)
    else if status =? 429 then
      throw (Error "You have reached your Copilot usage limit. Please try again later.")
    else if 500 <=? status then
      throw (Error "GitHub Copilot service is currently unavailable. Please try again later.")
    else if status =? 400 then
      throw (Error "Invalid request to Copilot. Please try a different prompt.")
    else
      throw (Error "Unable to get a response from GitHub Copilot.")
  else
    do data <- json body;
    (* data.choices[0]?.message.content.trim() *)
    let suggestion := trim <$> head (choices data) in
    if negb (truthy_opt suggestion) then
      throw (Error "No command suggestion received")
    else ret (default "" suggestion).

(** The [catch] block of [getCommandSuggestion]: the error is thrown
    again, as it is or under another message. *)
Definition translate {A} (error : JsError) : M A :=
  match error with
  | TokenExpiredError _ _ => throw error
  | Error message =>
      if includes message "fetch" then
        throw (Error "Network error: Unable to connect to GitHub Copilot. Please check your internet connection.")
      else if includes message "Copilot API error" then
        throw (Error "GitHub Copilot service error. Please try again in a few moments.")
      else if includes message "No command suggestion" then
        throw (Error "Copilot was unable to generate a command for your request. Please try rephrasing.")
      else
        throw (Error "Unable to get command suggestion from GitHub Copilot. Please try again.")
  end.

(** [getCommandSuggestion(prompt, accessToken, sessionContext?)] *)
Definition getCommandSuggestion `{DateParser} (net : Network)
    (prompt accessToken : string) (sessionContext : option string) : M string :=
  try_catch (suggest net prompt accessToken sessionContext) translate.

End Copilot.

(** ** Notions that the properties use *)
Module Notions.
Import Js.

(** The credential store holds a cached service token [token] whose
    stored expiry is strictly later than [now]: both slots are present
    in the parsed file (a present slot holds a value that is not falsy),
    and the stored expiry denotes a date after [now]. *)
Definition holdsFreshToken `{DateParser} (disk : Storage.Disk) (now : Z)
    (token : string) : Prop :=
  exists data e ms,
    disk = Some (Storage.Json data) /\
    Storage.copilotToken data = Some token /\ token <> "" /\
    Storage.copilotTokenExpiresAt data = Some e /\
    Storage.expiry_truthy e = true /\
    Storage.expiry_date e = Some ms /\ now < ms.

(** The store holds an identity token. *)
Definition holdsIdentity (disk : Storage.Disk) (githubToken : string) : Prop :=
  exists data,
    disk = Some (Storage.Json data) /\
    Storage.githubToken data = Some githubToken /\ githubToken <> "".

(** A list of numbers is non-decreasing. *)
Definition nondecreasing (l : list Z) : Prop :=
  forall i j a b, (i <= j)%nat -> l !! i = Some a -> l !! j = Some b -> a <= b.

(** An exchange is a successful response that carries the access token
    [token]. *)
Definition carriesToken (r : Auth.Exchange) (token : string) : Prop :=
  r = Auth.Data (Some token) /\ token <> "".

(** The blocks that [getSessionContext] renders: one per entry that it
    takes, numbered from 1, and their concatenation. *)
Definition renderedBlocks (session : Session.SessionData) (limit : Z)
  : list string :=
  imap (fun index entry => Session.entryBlock entry index)
       (slice (- limit) (Session.entries session)).

Definition join (blocks : list string) : string :=
  foldr String.append "" blocks.

(** The session is consistent with a clock that now reads [reading]:
    its timestamps are non-decreasing, none is later than [reading], and
    none is later than [lastUpdatedAt]. *)
Definition stamped (session : Session.SessionData) (reading : Z) : Prop :=
  nondecreasing (Session.timestamp <$> Session.entries session) /\
  (forall e, e ∈ Session.entries session -> Session.timestamp e <= reading) /\
  (forall e, e ∈ Session.entries session ->
             Session.timestamp e <= Session.lastUpdatedAt session).

(** The events of [k] rounds of polling that end in a wait. *)
Fixpoint pendingRounds (k : nat) (deviceCode : string) (ms : Z)
  : list Auth.Event :=
  match k with
  | O => []
  | S k' => Auth.Fetch deviceCode :: Auth.Sleep ms
            :: pendingRounds k' deviceCode ms
  end.

End Notions.

(** ** Concrete stores, networks and sessions *)
Module Examples.
Import Js.

(** A date parser that knows one ISO timestamp. *)
Definition oneDate : DateParser :=
  fun s =>
    if String.eqb s "2030-01-01T00:00:00.000Z" then Some 1893456000000
    else None.

(** 14 November 2023, in milliseconds. *)
Definition today : Z := 1700000000000.

Definition identityOnly : Storage.Disk :=
  Some (Storage.Json (Storage.mkTokenStorage (Some "gho_identity") None None ∅)).

(** A service token that expires in 2033. *)
Definition cached : Storage.Disk :=
  Some (Storage.Json
          (Storage.mkTokenStorage (Some "gho_identity") (Some "tid=cached")
                                  (Some (Storage.ExpiryNumber 2000000000)) ∅)).

(** A service token that expired in 2020. *)
Definition expired : Storage.Disk :=
  Some (Storage.Json
          (Storage.mkTokenStorage (Some "gho_identity") (Some "tid=old")
                                  (Some (Storage.ExpiryNumber 1600000000)) ∅)).

(** The body that carries [token], to expire in 2030. *)
Definition tokenReply (token : string) : Copilot.TokenResponse :=
  Copilot.mkTokenResponse token
    (Storage.ExpiryString "2030-01-01T00:00:00.000Z").

(** A network whose token endpoint answers [tokenStatus] with the token
    [token], and whose completion endpoint answers [completionStatus]
    with one choice. *)
Definition network (tokenStatus : Z) (token : string) (completionStatus : Z)
  : Copilot.Network :=
  Copilot.mkNetwork
    (fun _ => Copilot.Response tokenStatus (Copilot.JsonData (tokenReply token)))
    (fun _ _ =>
       Copilot.Response completionStatus
         (Copilot.JsonData (Copilot.mkResponse ["ls -la"]))).

(** A clock that advances by one millisecond at every reading. *)
Definition ticking : Session.Sys := Session.mkSys (fun k => Z.of_nat k) 0 ∅.

(** A clock that is set back by 50 ms after its third reading. *)
Definition setBack : Session.Sys :=
  Session.mkSys (fun k => if (k <? 3)%nat then 100 else 50) 0 ∅.

Definition entry (t : Z) (prompt : string) (command output : option string)
  : Session.SessionEntry :=
  Session.mkEntry t prompt command (Some true) output.

Definition threeEntries : Session.SessionData :=
  Session.mkSession "session-1" 0 30
    [entry 10 "list files" (Some "ls -la") (Some "file1");
     entry 20 "show disk usage" (Some "df -h") None;
     entry 30 "print the date" (Some "date") None].

(** The session of one executed command with two lines of output. *)
Definition oneEntry : Session.SessionData :=
  Session.mkSession "session-3" 0 10
    [entry 10 "list files" (Some "ls -la")
       (Some ("file1" ++ Session.nl ++ "file2"))].

(** An output of 501 characters. *)
Definition longOutput : string :=
  string_of_list_ascii (replicate 501 "x"%char).

(** An entry with an output but without a command. *)
Definition noCommand : Session.SessionData :=
  Session.mkSession "session-2" 0 10
    [entry 10 "show the log" None (Some longOutput)].

(** Three pending answers, then two that carry a token. *)
Definition grantedFourth (attempt : nat) : Auth.Exchange :=
  match attempt with
  | 0%nat | 1%nat | 2%nat => Auth.Data None
  | 3%nat => Auth.Data (Some "gho_fourth")
  | _ => Auth.Data (Some "gho_later")
  end.

End Examples.

(** ** More of JavaScript: string search, stable sort *)
Module JsMore.

(** [s.endsWith(suffix)] *)
Fixpoint endsWith (s suffix : string) : bool :=
  String.eqb s suffix ||
  match s with
  | String _ s' => endsWith s' suffix
  | EmptyString => false
  end.

(** [s.substring(n)] *)
Fixpoint dropChars (n : nat) (s : string) : string :=
  match n, s with
  | S n', String _ s' => dropChars n' s'
  | _, _ => s
  end.

(** [s.replace(pattern, '')] for a string [pattern]: the first
    occurrence is removed, the others stay. *)
Fixpoint removeFirst (pattern s : string) : string :=
  if String.prefix pattern s then dropChars (String.length pattern) s
  else
    match s with
    | String c s' => String c (removeFirst pattern s')
    | EmptyString => EmptyString
    end.

(** [arr.sort(compareFn)].  The sort of the language is stable, and for
    a [compareFn] that orders the elements there is one stable sorted
    arrangement: the one that insertion from the right builds, each
    element going before the first one it does not come after. *)
Fixpoint insertSorted {A} (compareFn : A -> A -> Z) (x : A) (l : list A)
  : list A :=
  match l with
  | [] => [x]
  | y :: l' =>
      if compareFn x y <=? 0 then x :: y :: l'
      else y :: insertSorted compareFn x l'
  end.

Definition sort {A} (compareFn : A -> A -> Z) (arr : list A) : list A :=
  foldr (insertSorted compareFn) [] arr.

End JsMore.

(** ** session.ts: listing and deleting the session files *)
Module SessionFiles.
Import Js JsMore Session.

(** One round of the [for (const file of files)] loop of [listSessions],
    on the directory state [sys]. *)
Definition collect (sys : Sys) (sessions : list SessionData) (file : string)
  : list SessionData :=
  if endsWith file ".json" then
    let sessionId := removeFirst ".json" file in
    match fst (loadSession sessionId sys) with
    | Some session => sessions ++ [session]
    | None => sessions
    end
  else sessions.

(** [listSessions()]; [files] is what [fs.readdirSync(SESSIONS_DIR)]
    returns.  A listed name whose session is not in [sessionFiles] stands
    for a file that does not parse: [loadSession] gives [null] for it. *)
Definition listSessions (files : list string) : M (list SessionData) :=
  fun sys =>
    let sessions := foldl (collect sys) [] files in
    (sort (fun a b => lastUpdatedAt b - lastUpdatedAt a) sessions, sys).

(** The directory as [deleteSession] sees it, which asks whether a file
    exists and not whether it loads: beside the state [loads], whose
    [sessionFiles] are the files that load, the identifiers in [broken]
    are those of the files that exist but do not parse ([loadSession]
    gives [null] for them). *)
Record Folder := mkFolder {
  loads : Sys;
  broken : gset string
}.

(** [fs.existsSync(path.join(SESSIONS_DIR, sessionId + '.json'))] *)
Definition existsSync (sessionId : string) (folder : Folder) : bool :=
  bool_decide (is_Some (sessionFiles (loads folder) !! sessionId))
  || bool_decide (sessionId ∈ broken folder).

(** [fs.unlinkSync(path.join(SESSIONS_DIR, sessionId + '.json'))] *)
Definition unlinkSync (sessionId : string) (folder : Folder) : Folder :=
  mkFolder
    (mkSys (clock (loads folder)) (ticks (loads folder))
           (delete sessionId (sessionFiles (loads folder))))
    (broken folder ∖ {[sessionId]}).

(** [deleteSession(sessionId)] *)
Definition deleteSession (sessionId : string) (folder : Folder)
  : bool * Folder :=
  if existsSync sessionId folder
  then (true, unlinkSync sessionId folder)
  else (false, folder).

End SessionFiles.

(** ** auth.ts: the request of a device code *)
Module DeviceFlow.
Import Js.

(** [interface DeviceCodeResponse] *)
Record DeviceCodeResponse := mkDeviceCode {
  device_code : string;
  user_code : string;
  verification_uri : string;
  expires_in : Z;
  interval : Z
}.

(** What the call of the device-code endpoint can come to. *)
Inductive Answer :=
| FetchRejects (message : string)
| Response (status : Z) (statusText : string)
           (body : Copilot.Body DeviceCodeResponse).

(** [getDeviceCode()], on the answer to its one request. *)
Definition getDeviceCode (answer : Answer) : Copilot.Outcome DeviceCodeResponse :=
  match answer with
  | FetchRejects message => Copilot.Throws (Copilot.Error message)
  | Response status statusText body =>
      if negb (Copilot.ok status) then
        Copilot.Throws
          (Copilot.Error ("Failed to get device code: " ++ statusText))
      else
        match body with
        | Copilot.JsonRejects message => Copilot.Throws (Copilot.Error message)
        | Copilot.JsonData data => Copilot.Returns data
        end
  end.

End DeviceFlow.

(** ** index.ts: start-up *)
Module Index.
Import Js.

(** What [main] does to the network, in order. *)
Inductive Event :=
| DeviceCodeRequest
| Polling (e : Auth.Event).

(** How [main] ends: it hands over to [startRepl(token, session)], it
    leaves by [process.exit(1)] from its catch block, or it is still in
    [pollForToken] when the fuel runs out. *)
Inductive Ending :=
| StartRepl (token : string) (session : Session.SessionData)
| Exit1
| StillPolling.

Record Run := mkRun {
  ending : Ending;
  disk : Storage.Disk;
  sys : Session.Sys;
  events : list Event
}.

(** [main()]; [sessionId] is the identifier that [createSession] draws. *)
Definition main (fuel : nat) (answer : DeviceFlow.Answer)
    (server : nat -> Auth.Exchange) (sessionId : string)
    (disk : Storage.Disk) (sys : Session.Sys) : Run :=
  match Storage.getToken disk with
  | Some token =>
      let (session, sys') := Session.createSession sessionId sys in
      mkRun (StartRepl token session) disk sys' []
  | None =>
      match DeviceFlow.getDeviceCode answer with
      | Copilot.Throws _ => mkRun Exit1 disk sys [DeviceCodeRequest]
      | Copilot.Returns deviceCode =>
          match Auth.pollForToken fuel server
                  (DeviceFlow.device_code deviceCode)
                  (DeviceFlow.interval deviceCode) with
          | (polled, Some token) =>
              let disk' := Storage.saveToken token disk in
              let (session, sys') := Session.createSession sessionId sys in
              mkRun (StartRepl token session) disk' sys'
                    (DeviceCodeRequest :: (Polling <$> polled))
          | (polled, None) =>
              mkRun StillPolling disk sys
                    (DeviceCodeRequest :: (Polling <$> polled))
          end
      end
  end.

End Index.

(** ** copilot.ts: the exported cache reset *)
Module CopilotCache.

(** [clearCopilotTokenCache()] *)
Definition clearCopilotTokenCache : Copilot.M unit := Copilot.clearCopilotToken.

End CopilotCache.

(** ** Further notions *)
Module MoreNotions.
Import Js.

(** The token that an exchange grants, if any. *)
Definition granted (r : Auth.Exchange) : option string :=
  match r with
  | Auth.Data (Some token) => if truthy token then Some token else None
  | _ => None
  end.

(** A list of sessions is ordered newest first. *)
Definition newestFirst (l : list Session.SessionData) : Prop :=
  forall i j a b, (i <= j)%nat -> l !! i = Some a -> l !! j = Some b ->
    Session.lastUpdatedAt b <= Session.lastUpdatedAt a.

(** The [compareFn] of [listSessions]. *)
Definition newer (a b : Session.SessionData) : Z :=
  Session.lastUpdatedAt b - Session.lastUpdatedAt a.

(** Every character of [s] is white space. *)
Fixpoint blank (s : string) : bool :=
  match s with
  | String c s' => is_space c && blank s'
  | EmptyString => true
  end.

(** [s] has no dot. *)
Fixpoint dotless (s : string) : bool :=
  match s with
  | String c s' => negb (Ascii.eqb c "."%char) && dotless s'
  | EmptyString => true
  end.

(** The number of [addSessionEntry] calls in a sequence. *)
Fixpoint appends (cs : list Session.Call) : nat :=
  match cs with
  | [] => 0%nat
  | Session.Append _ _ _ :: cs' => S (appends cs')
  | Session.UpdateLast _ _ _ :: cs' => appends cs'
  end.

(** The errors that [getCommandSuggestion] shows to its caller. *)
Definition userFacing (e : Copilot.JsError) : Prop :=
  e = Copilot.TokenExpiredError "GitHub access token expired or invalid" Copilot.github \/
  e = Copilot.TokenExpiredError "Copilot token expired or invalid" Copilot.copilot \/
  e = Copilot.Error "Network error: Unable to connect to GitHub Copilot. Please check your internet connection." \/
  e = Copilot.Error "GitHub Copilot service error. Please try again in a few moments." \/
  e = Copilot.Error "Copilot was unable to generate a command for your request. Please try rephrasing." \/
  e = Copilot.Error "Unable to get command suggestion from GitHub Copilot. Please try again.".

End MoreNotions.

(** ** More concrete data *)
Module MoreExamples.
Import Js.

(** A space, a line feed and a no-break space. *)
Definition blankText : string :=
  " " ++ Session.nl ++ String "160"%char EmptyString.

(** A network whose completion endpoint answers 200 with one choice of
    white space only. *)
Definition blankChoice : Copilot.Network :=
  Copilot.mkNetwork
    (fun _ => Copilot.Response 200
                (Copilot.JsonData (Examples.tokenReply "tid=new")))
    (fun _ _ => Copilot.Response 200
                  (Copilot.JsonData (Copilot.mkResponse [blankText]))).

(** Two saved sessions, the older one under [a]. *)
Definition older : Session.SessionData := Session.mkSession "a" 5 10 [].
Definition latest : Session.SessionData := Session.mkSession "b" 20 30 [].

Definition twoSessions : Session.Sys :=
  Session.mkSys (fun k => Z.of_nat k) 0 (<["a" := older]> (<["b" := latest]> ∅)).

(** The two sessions, and beside their files a file [broken.json] that
    does not parse. *)
Definition withBrokenFile : SessionFiles.Folder :=
  SessionFiles.mkFolder twoSessions {["broken"]}.

(** A directory listing with a file that is no session and a session
    file that does not load. *)
Definition listing : list string :=
  ["a.json"; "notes.txt"; "broken.json"; "b.json"].

(** The device-code endpoint grants a code, to be polled every 5 s. *)
Definition codeGranted : DeviceFlow.Answer :=
  DeviceFlow.Response 200 "OK"
    (Copilot.JsonData
       (DeviceFlow.mkDeviceCode "device-code" "ABCD-1234"
          "https://github.com/login/device" 900 5)).

(** The device-code endpoint is down. *)
Definition codeRefused : DeviceFlow.Answer :=
  DeviceFlow.Response 503 "Service Unavailable"
    (Copilot.JsonRejects "invalid json response body").

(** Like [Examples.grantedFourth], with failures of three kinds in place
    of the pending answers. *)
Definition failingThenGranted (attempt : nat) : Auth.Exchange :=
  match attempt with
  | 0%nat => Auth.FetchRejects "getaddrinfo ENOTFOUND github.com"
  | 1%nat => Auth.NotOk 500 "Internal Server Error"
  | 2%nat => Auth.Data (Some "")
  | 3%nat => Auth.Data (Some "gho_fourth")
  | _ => Auth.Data (Some "gho_later")
  end.

End MoreExamples.

(** ** Properties of the token file *)
Section StorageFacts.
Import Js Storage.
Context `{DateParser}.

Lemma truthy_true (s : string) : truthy s = true <-> s <> "".
Proof.
  unfold truthy. rewrite negb_true_iff. apply String.eqb_neq.
Qed.

Lemma truthy_false (s : string) : truthy s = false <-> s = "".
Proof.
  unfold truthy. rewrite negb_false_iff. apply String.eqb_eq.
Qed.

Lemma getToken_Some (disk : Disk) (g : string) :
  getToken disk = Some g <-> Notions.holdsIdentity disk g.
Proof.
  unfold getToken, Notions.holdsIdentity. split.
  - destruct disk as [[raw|data]|]; try discriminate.
    destruct (githubToken data) as [g'|] eqn:Hg; simpl; [|discriminate].
    destruct (truthy g') eqn:Ht; [|discriminate].
    intros [= ->]. exists data. repeat split; auto. now apply truthy_true.
  - intros (data & -> & Hg & Hne). rewrite Hg. simpl.
    apply truthy_true in Hne. now rewrite Hne.
Qed.

Lemma getCopilotToken_fresh (disk : Disk) (now : Z) (token : string) :
  Notions.holdsFreshToken disk now token <->
  exists d, getCopilotToken disk = Some (token, d) /\ date_gt d now = true.
Proof.
  unfold Notions.holdsFreshToken, getCopilotToken. split.
  - intros (data & e & ms & -> & Ht & Hne & He & Hte & Hd & Hlt).
    rewrite Ht, He. apply truthy_true in Hne. rewrite Hne, Hte. simpl.
    eexists. split; [reflexivity|]. rewrite Hd. simpl. lia.
  - intros (d & Hget & Hgt).
    destruct disk as [[raw|data]|]; try discriminate.
    destruct (copilotToken data) as [t|] eqn:Ht; [|discriminate].
    destruct (copilotTokenExpiresAt data) as [e|] eqn:He; [|discriminate].
    destruct (truthy t) eqn:Htt; [|discriminate].
    destruct (expiry_truthy e) eqn:Hte; [|discriminate].
    simpl in Hget. injection Hget as -> <-.
    unfold date_gt in Hgt. destruct (expiry_date e) as [ms|] eqn:Hd; [|discriminate].
    exists data, e, ms. repeat split; auto.
    + now apply truthy_true.
    + lia.
Qed.

Lemma getCopilotToken_clearCopilotToken (disk : Disk) :
  getCopilotToken (clearCopilotToken disk) = None.
Proof. now destruct disk as [[raw|data]|]. Qed.

Lemma getToken_clearCopilotToken (disk : Disk) :
  getToken (clearCopilotToken disk) = getToken disk.
Proof. now destruct disk as [[raw|data]|]. Qed.

Lemma saveCopilotToken_stores (data : TokenStorage) (g token : string)
    (e : Expiry) :
  githubToken data = Some g -> g <> "" -> token <> "" ->
  saveCopilotToken token e (Some (Json data))
  = Some (Json (mkTokenStorage (Some g) (Some token) (Some e) (otherKeys data))).
Proof.
  intros Hg Hgne Hne. unfold saveCopilotToken.
  assert (Hget : getToken (Some (Json data)) = Some g)
    by (apply getToken_Some; exists data; auto).
  rewrite Hget. unfold saveTokens. simpl.
  apply truthy_true in Hne. now rewrite Hne.
Qed.

(** C8.  A write to the token file keeps the slots it is not about:
    saving the identity token alone leaves the cached service token, its
    expiry and every other key as they were, saving a service token
    leaves the identity token and the other keys as they were, and so
    does clearing the service token. *)
Theorem writes_preserve_unrelated_slots :
  (forall (g : string) (data : TokenStorage),
      saveTokens g None None (Some (Json data))
      = Some (Json (mkTokenStorage (Some g) (copilotToken data)
                                   (copilotTokenExpiresAt data)
                                   (otherKeys data)))) /\
  (forall (g : string) (disk : Disk),
      getCopilotToken (saveTokens g None None disk) = getCopilotToken disk) /\
  (forall (token : string) (e : Expiry) (data : TokenStorage),
      exists data',
        saveCopilotToken token e (Some (Json data)) = Some (Json data') /\
        githubToken data' = githubToken data /\
        otherKeys data' = otherKeys data) /\
  (forall (token : string) (e : Expiry) (disk : Disk),
      getToken (saveCopilotToken token e disk) = getToken disk) /\
  (forall (disk : Disk),
      getToken (clearCopilotToken disk) = getToken disk) /\
  (forall (data : TokenStorage),
      clearCopilotToken (Some (Json data))
      = Some (Json (mkTokenStorage (githubToken data) None None
                                   (otherKeys data)))).
Proof.
  split; [|split; [|split; [|split; [|split]]]]; [| | | | |reflexivity].
  - reflexivity.
  - intros g [[raw|data]|]; reflexivity.
  - intros token e data. unfold saveCopilotToken.
    destruct (getToken (Some (Json data))) as [g|] eqn:Hg.
    + apply getToken_Some in Hg as (data0 & [= <-] & Hg & _).
      unfold saveTokens.
      destruct (truthy_opt (Some token)); eexists;
        (split; [reflexivity|split; [simpl; congruence|reflexivity]]).
    + exists data. repeat split.
  - intros token e disk. unfold saveCopilotToken.
    destruct (getToken disk) as [g|] eqn:Hg; [|exact Hg].
    pose proof Hg as Hid. apply getToken_Some in Hid as (data & -> & Hd & Hne).
    apply truthy_true in Hne.
    unfold saveTokens, getToken.
    destruct (truthy_opt (Some token)); simpl; now rewrite Hne.
  - apply getToken_clearCopilotToken.
Qed.

End StorageFacts.

(** ** Properties of the token broker *)
Section BrokerFacts.
Import Js Copilot.
Context `{DateParser}.

Lemma getCopilotToken_unfold (net : Network) (a : string) (w : World) :
  getCopilotToken net a w =
  match Storage.getCopilotToken (disk w) with
  | Some (token, expiresAt) =>
      if date_gt expiresAt (now w) then (Returns token, w)
      else fetchNewToken net a w
  | None => fetchNewToken net a w
  end.
Proof.
  unfold getCopilotToken, bind, getStoredCopilotToken, newDate, ret.
  destruct (Storage.getCopilotToken (disk w)) as [[token expiresAt]|];
    [destruct (date_gt expiresAt (now w))|]; reflexivity.
Qed.

Lemma getCopilotToken_hit (net : Network) (a : string) (w : World) (token : string) :
  Notions.holdsFreshToken (disk w) (now w) token ->
  getCopilotToken net a w = (Returns token, w).
Proof.
  intros Hf. apply getCopilotToken_fresh in Hf as (d & Hget & Hgt).
  rewrite getCopilotToken_unfold, Hget, Hgt. reflexivity.
Qed.

Lemma getCopilotToken_miss (net : Network) (a : string) (w : World) :
  (forall token, ~ Notions.holdsFreshToken (disk w) (now w) token) ->
  getCopilotToken net a w = fetchNewToken net a w.
Proof.
  intros Hno. rewrite getCopilotToken_unfold.
  destruct (Storage.getCopilotToken (disk w)) as [[token d]|] eqn:Hget; [|reflexivity].
  destruct (date_gt d (now w)) eqn:Hgt; [|reflexivity].
  exfalso. apply (Hno token). apply getCopilotToken_fresh. eauto.
Qed.

(** Whatever the endpoint answers, fetching a new token issues one call. *)
Lemma fetchNewToken_one_call (net : Network) (a : string) (w : World) :
  exists r d,
    fetchNewToken net a w = (r, mkWorld d (now w) (sent w ++ [GetToken a])).
Proof.
  unfold fetchNewToken, bind, fetch.
  destruct (tokenEndpoint net a) as [message|status body]; [eauto|].
  destruct (negb (ok status)).
  - destruct ((status =? 401) || (status =? 403)); [simpl; eauto|].
    destruct (status =? 429); [simpl; eauto|].
    destruct (500 <=? status); simpl; eauto.
  - destruct body as [message|data]; simpl; eauto.
Qed.

(** C1.  With a cached service token whose expiry is strictly in the
    future, the broker returns that token and issues no network call (the
    world is unchanged); otherwise it issues exactly one call, to the
    token endpoint, with the identity token. *)
Theorem cached_token_or_one_call (net : Network) (a : string) (w : World) :
  (forall token,
      Notions.holdsFreshToken (disk w) (now w) token ->
      getCopilotToken net a w = (Returns token, w)) /\
  ((forall token, ~ Notions.holdsFreshToken (disk w) (now w) token) ->
   exists r d,
     getCopilotToken net a w
     = (r, mkWorld d (now w) (sent w ++ [GetToken a]))).
Proof.
  split.
  - intros token. apply getCopilotToken_hit.
  - intros Hno. rewrite (getCopilotToken_miss _ _ _ Hno).
    apply fetchNewToken_one_call.
Qed.

(** C2.  A response of the token endpoint outside 200..299 makes the
    broker throw after that one call: on 401 and 403 the cached service
    token is cleared and a [TokenExpiredError] of type [github] is thrown,
    and any later call of the broker on the cleared store goes to the
    network again; on 429 the rate-limit error, from 500 on the
    service-unavailable error, and otherwise the generic authentication
    error is thrown, with the store untouched. *)
Theorem token_endpoint_failure (net : Network) (a : string) (w : World)
    (status : Z) (body : Body TokenResponse) :
  (forall token, ~ Notions.holdsFreshToken (disk w) (now w) token) ->
  tokenEndpoint net a = Response status body ->
  ok status = false ->
  exists e d,
    getCopilotToken net a w
    = (Throws e, mkWorld d (now w) (sent w ++ [GetToken a])) /\
    (status = 401 \/ status = 403 ->
       e = TokenExpiredError "GitHub access token expired or invalid" github /\
       d = Storage.clearCopilotToken (disk w) /\
       Storage.getCopilotToken d = None /\
       forall net' a' now' log, exists r d',
         getCopilotToken net' a' (mkWorld d now' log)
         = (r, mkWorld d' now' (log ++ [GetToken a']))) /\
    (status = 429 ->
       e = Error "Rate limit exceeded. Please try again later." /\ d = disk w) /\
    (500 <= status ->
       e = Error "GitHub service is currently unavailable. Please try again later."
       /\ d = disk w) /\
    (status <> 401 -> status <> 403 -> status <> 429 -> status < 500 ->
       e = Error "Unable to authenticate with GitHub Copilot." /\ d = disk w).
Proof.
  intros Hno Hnet Hok. rewrite (getCopilotToken_miss _ _ _ Hno).
  unfold fetchNewToken, bind, fetch. rewrite Hnet, Hok. simpl negb. cbv iota.
  destruct ((status =? 401) || (status =? 403)) eqn:Hauth.
  - do 2 eexists. split; [reflexivity|]. simpl disk.
    apply orb_true_iff in Hauth.
    repeat split; try (intros; lia).
    + apply getCopilotToken_clearCopilotToken.
    + intros net' a' now' log. rewrite getCopilotToken_unfold. simpl disk.
      rewrite getCopilotToken_clearCopilotToken.
      apply (fetchNewToken_one_call net' a'
               (mkWorld (Storage.clearCopilotToken (disk w)) now' log)).
  - apply orb_false_iff in Hauth as [H401 H403].
    destruct (status =? 429) eqn:H429.
    + do 2 eexists. split; [reflexivity|].
      repeat split; try (intros; lia).
    + destruct (500 <=? status) eqn:H500.
      * do 2 eexists. split; [reflexivity|].
        repeat split; try (intros; lia).
      * do 2 eexists. split; [reflexivity|].
        repeat split; try (intros; lia).
Qed.

Lemma saveCopilotToken_unchanged (token : string) (e : Storage.Expiry)
    (disk : Storage.Disk) :
  (forall g, ~ Notions.holdsIdentity disk g) \/ token = "" ->
  Storage.saveCopilotToken token e disk = disk.
Proof.
  intros Hcase. unfold Storage.saveCopilotToken.
  destruct (Storage.getToken disk) as [g|] eqn:Hget; [|reflexivity].
  apply getToken_Some in Hget.
  destruct Hcase as [Hnone| ->]; [now destruct (Hnone g)|].
  destruct Hget as (stored & -> & Hg & _).
  unfold Storage.saveTokens. simpl. rewrite <- Hg.
  now destruct stored.
Qed.

(** C7, as amended.  When the refresh call gets a 2xx response, the store
    holds an identity token and the returned service token is not empty,
    the token file afterwards holds the identity token, the new service
    token, the expiry as received and the other keys it had, and the new
    token is returned; the
    reader then gives the token back with the date of a non-zero number
    of epoch seconds, or of a non-empty date string.  When the store
    holds no identity token, or the returned token is empty, the token
    is returned all the same, after the one call, and the store is left
    as it was. *)
Theorem refreshed_token_persisted (net : Network) (a : string) (w : World)
    (status : Z) (data : TokenResponse) :
  (forall token, ~ Notions.holdsFreshToken (disk w) (now w) token) ->
  tokenEndpoint net a = Response status (JsonData data) ->
  ok status = true ->
  (forall (stored : Storage.TokenStorage) (g : string),
     disk w = Some (Storage.Json stored) ->
     Storage.githubToken stored = Some g -> g <> "" ->
     token data <> "" ->
     let disk' :=
       Some (Storage.Json
               (Storage.mkTokenStorage (Some g) (Some (token data))
                                       (Some (expires_at data))
                                       (Storage.otherKeys stored))) in
     getCopilotToken net a w
     = (Returns (token data), mkWorld disk' (now w) (sent w ++ [GetToken a])) /\
     (forall n, expires_at data = Storage.ExpiryNumber n -> n <> 0 ->
        Storage.getCopilotToken disk'
        = Some (token data, date_of_millis (n * 1000))) /\
     (forall s, expires_at data = Storage.ExpiryString s -> s <> "" ->
        Storage.getCopilotToken disk' = Some (token data, date_parse s))) /\
  ((forall g, ~ Notions.holdsIdentity (disk w) g) \/ token data = "" ->
   getCopilotToken net a w
   = (Returns (token data),
      mkWorld (disk w) (now w) (sent w ++ [GetToken a]))).
Proof.
  intros Hno Hnet Hok.
  assert (Hrun : getCopilotToken net a w
                 = (Returns (token data),
                    mkWorld (Storage.saveCopilotToken (token data)
                               (expires_at data) (disk w))
                            (now w) (sent w ++ [GetToken a]))).
  { rewrite (getCopilotToken_miss _ _ _ Hno).
    unfold fetchNewToken, bind, fetch. rewrite Hnet, Hok. reflexivity. }
  split.
  - intros stored g Hdisk Hg Hgne Hne disk'.
    split; [|split].
    + rewrite Hrun, Hdisk, (saveCopilotToken_stores stored g) by assumption.
      reflexivity.
    + intros n He Hn. apply truthy_true in Hne.
      subst disk'. simpl. rewrite Hne, He. simpl.
      destruct (n =? 0) eqn:E; [lia|reflexivity].
    + intros s He Hs. apply truthy_true in Hne.
      subst disk'. simpl. rewrite Hne, He. simpl.
      apply truthy_true in Hs. rewrite Hs. reflexivity.
  - intros Hcase. rewrite Hrun.
    now rewrite (saveCopilotToken_unchanged _ _ _ Hcase).
Qed.

End BrokerFacts.

(** ** Facts about strings *)
Section StringFacts.

Lemma append_cons (x : ascii) (a b : string) :
  String x a ++ b = String x (a ++ b).
Proof. reflexivity. Qed.

Lemma append_assoc (a b c : string) : (a ++ b) ++ c = a ++ (b ++ c).
Proof.
  induction a as [|x a IH]; [reflexivity|].
  rewrite !append_cons. now rewrite IH.
Qed.

Lemma append_empty_r (a : string) : a ++ "" = a.
Proof.
  induction a as [|x a IH]; [reflexivity|].
  rewrite append_cons. now rewrite IH.
Qed.

Lemma substring_0_length (n : nat) (s : string) :
  String.length (substring 0 n s) = Nat.min n (String.length s).
Proof.
  revert s. induction n as [|n IH]; intros [|c s]; simpl; try reflexivity.
  now rewrite IH.
Qed.

Lemma substring_0_prefix (n : nat) (s : string) :
  String.prefix (substring 0 n s) s = true.
Proof.
  revert s. induction n as [|n IH]; intros [|c s]; simpl; try reflexivity.
  destruct (ascii_dec c c) as [_|Hne]; [apply IH|now destruct Hne].
Qed.

Lemma substring_0_all (n : nat) (s : string) :
  (String.length s <= n)%nat -> substring 0 n s = s.
Proof.
  revert s. induction n as [|n IH]; intros [|c s]; simpl; try reflexivity.
  - lia.
  - intros Hle. rewrite IH; [reflexivity|lia].
Qed.

End StringFacts.

(** ** Properties of the session log *)
Section SessionFacts.
Import Js Session Notions.

Lemma nondecreasing_snoc (l : list Z) (x : Z) :
  nondecreasing l -> (forall a, a ∈ l -> a <= x) -> nondecreasing (l ++ [x]).
Proof.
  intros Hl Hx i j a b Hij Hi Hj.
  apply lookup_snoc_Some in Hi as [[Hi1 Hi2]|[Hi1 <-]];
    apply lookup_snoc_Some in Hj as [[Hj1 Hj2]|[Hj1 <-]].
  - exact (Hl i j a b Hij Hi2 Hj2).
  - apply Hx. eapply list_elem_of_lookup_2; eauto.
  - lia.
  - lia.
Qed.

Lemma timestamps_alter_updateEntry command executed output (i : nat)
    (l : list SessionEntry) :
  timestamp <$> alter (updateEntry command executed output) i l = timestamp <$> l.
Proof.
  rewrite (list_fmap_alter timestamp _ (fun t => t)).
  - apply list_alter_id. reflexivity.
  - apply Forall_forall. reflexivity.
Qed.

Lemma elem_of_alter_timestamp command executed output (i : nat)
    (l : list SessionEntry) (e : SessionEntry) :
  e ∈ alter (updateEntry command executed output) i l ->
  exists e', e' ∈ l /\ timestamp e' = timestamp e.
Proof.
  intros He.
  assert (Hin : timestamp e ∈ timestamp <$>
                  alter (updateEntry command executed output) i l)
    by (apply list_elem_of_fmap; eauto).
  rewrite timestamps_alter_updateEntry in Hin.
  apply list_elem_of_fmap in Hin as (e' & Heq & Hin). eauto.
Qed.

(** One call keeps the session consistent with the clock. *)
Lemma call_stamped (c : Call) (session : SessionData) (sys : Sys) :
  (forall k, clock sys k <= clock sys (S k)) ->
  stamped session (clock sys (ticks sys)) ->
  clock (snd (call c session sys)) = clock sys /\
  stamped (fst (call c session sys))
          (clock sys (ticks (snd (call c session sys)))).
Proof.
  intros Hmono (Hsorted & Hclock & Hlast).
  pose proof (Hmono (ticks sys)) as H1.
  pose proof (Hmono (S (ticks sys))) as H2.
  destruct c as [p cmd ex|cmd ex out]; simpl.
  - (* addSessionEntry *)
    split; [reflexivity|]. unfold stamped. simpl.
    split; [|split].
    + rewrite fmap_app. simpl. apply nondecreasing_snoc; [assumption|].
      intros a Ha. apply list_elem_of_fmap in Ha as (e & -> & He). auto.
    + intros e He. apply elem_of_app in He as [He|He].
      * specialize (Hclock e He). lia.
      * apply list_elem_of_singleton in He as ->. simpl. lia.
    + intros e He. apply elem_of_app in He as [He|He].
      * specialize (Hclock e He). lia.
      * apply list_elem_of_singleton in He as ->. simpl. lia.
  - (* updateLastSessionEntry *)
    unfold updateLastSessionEntry.
    destruct (0 <? length (entries session))%nat; simpl.
    + split; [reflexivity|]. unfold stamped. simpl.
      rewrite timestamps_alter_updateEntry.
      split; [assumption|split].
      * intros e He. apply elem_of_alter_timestamp in He as (e' & He' & <-).
        specialize (Hclock e' He'). lia.
      * intros e He. apply elem_of_alter_timestamp in He as (e' & He' & <-).
        specialize (Hclock e' He'). lia.
    + split; [reflexivity|]. unfold stamped. auto.
Qed.

Lemma calls_stamped (cs : list Call) (session : SessionData) (sys : Sys) :
  (forall k, clock sys k <= clock sys (S k)) ->
  stamped session (clock sys (ticks sys)) ->
  stamped (fst (calls cs session sys))
          (clock sys (ticks (snd (calls cs session sys)))).
Proof.
  revert session sys. induction cs as [|c cs IH]; intros session sys Hmono Hst.
  - exact Hst.
  - simpl. unfold bind.
    destruct (call_stamped c session sys Hmono Hst) as [Hclk Hst'].
    destruct (call c session sys) as [session' sys'] eqn:Hcall. simpl in *.
    rewrite <- Hclk in Hst' |- *. apply IH; [|assumption].
    rewrite Hclk. assumption.
Qed.

(** C4, as amended.  Under a clock that never goes back, every sequence
    of [addSessionEntry] and [updateLastSessionEntry] calls on a session
    that is consistent with the clock (as a created session is) leaves the
    timestamps of the entries non-decreasing, and [lastUpdatedAt] not
    earlier than the timestamp of the last entry. *)
Theorem session_timestamps_ordered (cs : list Call) (session : SessionData)
    (sys : Sys) :
  (forall k, clock sys k <= clock sys (S k)) ->
  stamped session (clock sys (ticks sys)) ->
  let session' := fst (calls cs session sys) in
  nondecreasing (timestamp <$> entries session') /\
  (forall e, last (entries session') = Some e ->
             timestamp e <= lastUpdatedAt session').
Proof.
  intros Hmono Hst session'.
  destruct (calls_stamped cs session sys Hmono Hst) as (Hsorted & _ & Hlast).
  split; [exact Hsorted|].
  intros e He. apply Hlast. rewrite last_lookup in He.
  eapply list_elem_of_lookup_2; eauto.
Qed.

(** A created session is consistent with the clock. *)
Lemma createSession_stamped (sessionId : string) (sys : Sys) :
  stamped (fst (createSession sessionId sys))
          (clock sys (ticks (snd (createSession sessionId sys)))).
Proof.
  unfold stamped. simpl. split; [|split].
  - intros i j a b _ Hi. now rewrite lookup_nil in Hi.
  - intros e He. now apply elem_of_nil in He.
  - intros e He. now apply elem_of_nil in He.
Qed.

End SessionFacts.

(** ** Properties of the rendered context *)
Section ContextFacts.
Import Js Session Notions.

Lemma append_nonempty (a b : string) : a <> "" -> a ++ b <> "".
Proof.
  destruct a as [|x a]; [contradiction|].
  intros _. rewrite append_cons. discriminate.
Qed.

Lemma forEach_blocks (l : list SessionEntry) (index : nat) (context : string) :
  forEach (fun context entry index => context ++ entryBlock entry index)
          l index context
  = context ++ join (imap (fun i entry => entryBlock entry (index + i)) l).
Proof.
  revert index context. induction l as [|e l IH]; intros index context.
  - simpl. now rewrite append_empty_r.
  - simpl. rewrite IH, append_assoc, Nat.add_0_r.
    do 3 f_equal. apply imap_ext. intros i x _. simpl. f_equal. lia.
Qed.

(** The context is the header followed by the rendered blocks. *)
Lemma getSessionContext_blocks (session : SessionData) (limit : Z) :
  getSessionContext session (Some limit)
  = ("Previous commands:" ++ nl ++ nl) ++ join (renderedBlocks session limit).
Proof.
  unfold getSessionContext, renderedBlocks. simpl default.
  now rewrite forEach_blocks.
Qed.

Lemma slice_last (A : Type) (l : list A) (limit : Z) :
  1 <= limit ->
  slice (- limit) l
  = drop (length l - Z.to_nat (Z.min limit (Z.of_nat (length l)))) l.
Proof.
  intros Hl. unfold slice.
  destruct (- limit <? 0) eqn:E; [|lia].
  f_equal. lia.
Qed.

Lemma limitedOutput_kept (o : string) :
  exists kept,
    limitedOutput o
    = kept ++ (if (500 <? String.length o)%nat then "... [output truncated]" else "") /\
    String.prefix kept o = true /\
    (String.length kept <= 500)%nat /\
    ((String.length o <= 500)%nat -> kept = o) /\
    ((500 < String.length o)%nat -> String.length kept = 500%nat).
Proof.
  unfold limitedOutput, maxOutputLength.
  destruct (500 <? String.length o)%nat eqn:E.
  - apply Nat.ltb_lt in E. exists (substring 0 500 o).
    split; [reflexivity|]. split; [apply substring_0_prefix|].
    rewrite substring_0_length. repeat split; lia.
  - apply Nat.ltb_ge in E. exists o.
    split; [now rewrite append_empty_r|].
    split; [rewrite <- (substring_0_all 500 o E) at 1; apply substring_0_prefix|].
    repeat split; auto; lia.
Qed.

(** C5, as amended.  For a limit of at least 1, [getSessionContext]
    renders exactly min(limit, number of entries) blocks, which are the
    last that many entries in their order, oldest first, numbered from 1.
    A block shows the command, the execution flag and the output only
    for an entry with a non-empty command; the output shown is at most
    the first 500 characters of a non-empty output, followed by the
    truncation marker exactly when the output is longer than 500. *)
Theorem context_renders_recent_entries (session : SessionData) (limit : Z) :
  1 <= limit ->
  let n := length (entries session) in
  let k := Z.to_nat (Z.min limit (Z.of_nat n)) in
  getSessionContext session None = getSessionContext session (Some 5) /\
  getSessionContext session (Some limit)
  = ("Previous commands:" ++ nl ++ nl) ++ join (renderedBlocks session limit) /\
  length (renderedBlocks session limit) = k /\
  (forall i, (i < k)%nat ->
     exists entry,
       entries session !! (n - k + i)%nat = Some entry /\
       renderedBlocks session limit !! i = Some (entryBlock entry i)) /\
  (forall entry index,
     exists details,
       entryBlock entry index
       = ("[" ++ pretty (index + 1)%nat ++ "] User: " ++ prompt entry ++ nl)
         ++ details ++ nl /\
       (truthy_opt (command entry) = false -> details = "") /\
       (forall c, command entry = Some c -> c <> "" ->
          exists shown,
            details
            = ("    Command: " ++ c ++ nl)
              ++ ("    Executed: "
                  ++ (if default false (executed entry) then "Yes" else "No")
                  ++ nl)
              ++ shown /\
            (truthy_opt (output entry) = false -> shown = "") /\
            (forall o, output entry = Some o -> o <> "" ->
               exists kept,
                 shown
                 = "    Output: "
                   ++ replace_newlines (nl ++ "      ")
                        (kept ++ (if (500 <? String.length o)%nat
                                  then "... [output truncated]" else ""))
                   ++ nl /\
                 String.prefix kept o = true /\
                 (String.length kept <= 500)%nat /\
                 ((String.length o <= 500)%nat -> kept = o) /\
                 ((500 < String.length o)%nat -> String.length kept = 500%nat)))).
Proof.
  intros Hl n k. split; [reflexivity|].
  split; [apply getSessionContext_blocks|].
  assert (Hk : (k <= n)%nat) by (subst k; lia).
  unfold renderedBlocks. rewrite (slice_last _ _ _ Hl). fold n. fold k.
  split; [|split].
  - rewrite length_imap, length_drop. fold n. lia.
  - intros i Hi.
    destruct (lookup_lt_is_Some_2 (entries session) (n - k + i)) as [entry He];
      [fold n; lia|].
    exists entry. split; [exact He|].
    rewrite list_lookup_imap, lookup_drop, He. reflexivity.
  - intros entry index. eexists. split; [reflexivity|]. split.
    + intros ->. reflexivity.
    + intros c Hc Hne. apply truthy_true in Hne. rewrite Hc. simpl.
      rewrite Hne. eexists. split; [reflexivity|]. split.
      * intros ->. reflexivity.
      * intros o Ho Hno. apply truthy_true in Hno. rewrite Ho. simpl.
        rewrite Hno.
        destruct (limitedOutput_kept o) as (kept & -> & Hkept).
        exists kept. split; [reflexivity|exact Hkept].
Qed.

(** C10.  Whatever the session and the limit, the context begins with
    the header [Previous commands:] and is not the empty string; for a
    session without entries it is the header alone.  A caller that tests
    the context for truthiness therefore finds it true also then, and
    [prepareMessages] sends a system message for it. *)
Theorem context_never_empty (session : SessionData) (limit : option Z)
    (prompt : string) :
  (exists rest,
     getSessionContext session limit = "Previous commands:" ++ rest) /\
  getSessionContext session limit <> "" /\
  truthy (getSessionContext session limit) = true /\
  (forall sessionId created updated,
     getSessionContext (mkSession sessionId created updated []) limit
     = "Previous commands:" ++ nl ++ nl) /\
  (exists text userMessage,
     Copilot.prepareMessages prompt (Some (getSessionContext session limit))
     = [Copilot.mkMessage Copilot.system
          (getSessionContext session limit ++ text);
        userMessage]).
Proof.
  assert (Hshape : exists rest,
             getSessionContext session limit = "Previous commands:" ++ rest).
  { unfold getSessionContext. rewrite forEach_blocks.
    rewrite append_assoc. eauto. }
  assert (Hne : getSessionContext session limit <> "").
  { destruct Hshape as [rest ->]. now apply append_nonempty. }
  assert (Htruthy : truthy (getSessionContext session limit) = true)
    by now apply truthy_true.
  split; [exact Hshape|]. split; [exact Hne|]. split; [exact Htruthy|].
  split.
  - intros sessionId created updated.
    unfold getSessionContext, slice. simpl entries. now rewrite drop_nil.
  - unfold Copilot.prepareMessages. simpl truthy_opt. rewrite Htruthy.
    simpl. eauto.
Qed.

End ContextFacts.

(** ** Properties of the polling loop *)
Section PollingFacts.
Import Js Auth Notions.
Variable server : nat -> Exchange.
Variable deviceCode : string.
Variable pollInterval : Z.

Lemma round_cases (r : Exchange) :
  (exists t, carriesToken r t /\
             round deviceCode pollInterval r = ([Fetch deviceCode], Some t)) \/
  ((forall t, ~ carriesToken r t) /\
   round deviceCode pollInterval r
   = ([Fetch deviceCode; Sleep pollInterval], None)).
Proof.
  unfold carriesToken.
  destruct r as [m|st txt|m|[t|]]; simpl;
    try (right; split; [intros t [Hr _]; discriminate|reflexivity]).
  destruct (truthy t) eqn:Ht.
  - left. exists t. apply truthy_true in Ht. auto.
  - right. apply truthy_false in Ht. subst t.
    split; [|reflexivity]. intros t [[= <-] Hne]. now apply Hne.
Qed.

Lemma carriesToken_unique (r : Exchange) (t t' : string) :
  carriesToken r t -> carriesToken r t' -> t = t'.
Proof. intros [-> _] [[= ->] _]. reflexivity. Qed.

(** What the loop comes to, from any attempt on and for any fuel. *)
Lemma pollLoop_spec (fuel attempt : nat) :
  match pollLoop fuel server attempt deviceCode pollInterval with
  | (events, Some token) =>
      exists k, (k < fuel)%nat /\
        carriesToken (server (attempt + k)%nat) token /\
        (forall j, (j < k)%nat ->
                   forall t, ~ carriesToken (server (attempt + j)%nat) t) /\
        events = (pendingRounds k deviceCode pollInterval
                  ++ [Fetch deviceCode])%list
  | (events, None) =>
      (forall j, (j < fuel)%nat ->
                 forall t, ~ carriesToken (server (attempt + j)%nat) t) /\
      events = pendingRounds fuel deviceCode pollInterval
  end.
Proof.
  revert attempt. induction fuel as [|fuel IH]; intros attempt.
  - simpl. split; [intros j Hj; lia|reflexivity].
  - simpl.
    destruct (round_cases (server attempt)) as [(t & Ht & ->)|[Hnone ->]].
    + exists 0%nat. rewrite Nat.add_0_r.
      refine (conj _ (conj Ht (conj _ eq_refl))); [lia|intros j Hj; lia].
    + specialize (IH (S attempt)).
      destruct (pollLoop fuel server (S attempt) deviceCode pollInterval)
        as [events [token|]].
      * destruct IH as (k & Hk & Hgrant & Hbefore & ->).
        exists (S k). replace (attempt + S k)%nat with (S attempt + k)%nat by lia.
        refine (conj _ (conj Hgrant (conj _ eq_refl))); [lia|].
        intros [|j] Hj t.
        -- rewrite Nat.add_0_r. apply Hnone.
        -- replace (attempt + S j)%nat with (S attempt + j)%nat by lia.
           apply Hbefore. lia.
      * destruct IH as [Hbefore ->]. split; [|reflexivity].
        intros [|j] Hj t.
        -- rewrite Nat.add_0_r. apply Hnone.
        -- replace (attempt + S j)%nat with (S attempt + j)%nat by lia.
           apply Hbefore. lia.
Qed.

End PollingFacts.

Section PollForTokenFacts.
Import Js Auth Notions.

(** C6.  [pollForToken] returns nothing but the access token of a
    successful exchange, the first one, having waited [interval] seconds
    after each attempt before it; it does return it however many attempts
    that takes; and while no exchange carries a token it goes on, one wait
    after each attempt, for any number of rounds. *)
Theorem pollForToken_returns_granted_token (server : nat -> Exchange)
    (deviceCode : string) (interval : Z) :
  (forall fuel events token,
      pollForToken fuel server deviceCode interval = (events, Some token) ->
      exists k, (k < fuel)%nat /\
        carriesToken (server k) token /\
        (forall j, (j < k)%nat -> forall t, ~ carriesToken (server j) t) /\
        events = (pendingRounds k deviceCode (interval * 1000)
                  ++ [Fetch deviceCode])%list) /\
  (forall k token,
      carriesToken (server k) token ->
      (forall j, (j < k)%nat -> forall t, ~ carriesToken (server j) t) ->
      forall fuel, (k < fuel)%nat ->
        pollForToken fuel server deviceCode interval
        = ((pendingRounds k deviceCode (interval * 1000)
            ++ [Fetch deviceCode])%list, Some token)) /\
  ((forall j t, ~ carriesToken (server j) t) ->
   forall fuel,
     pollForToken fuel server deviceCode interval
     = (pendingRounds fuel deviceCode (interval * 1000), None)).
Proof.
  unfold pollForToken. split; [|split].
  - intros fuel events token Hrun.
    pose proof (pollLoop_spec server deviceCode (interval * 1000) fuel 0) as Hs.
    rewrite Hrun in Hs. exact Hs.
  - intros k token Hk Hbefore fuel Hfuel.
    pose proof (pollLoop_spec server deviceCode (interval * 1000) fuel 0) as Hs.
    destruct (pollLoop fuel server 0 deviceCode (interval * 1000))
      as [events [token'|]].
    + destruct Hs as (k' & Hk' & Hgrant & Hbefore' & ->). simpl in *.
      destruct (Nat.lt_trichotomy k k') as [Hlt|[->|Hgt]].
      * exfalso. exact (Hbefore' k Hlt token Hk).
      * now rewrite (carriesToken_unique _ _ _ Hgrant Hk).
      * exfalso. exact (Hbefore k' Hgt token' Hgrant).
    + destruct Hs as [Hnone _]. exfalso. exact (Hnone k Hfuel token Hk).
  - intros Hnever fuel.
    pose proof (pollLoop_spec server deviceCode (interval * 1000) fuel 0) as Hs.
    destruct (pollLoop fuel server 0 deviceCode (interval * 1000))
      as [events [token|]].
    + destruct Hs as (k & _ & Hgrant & _). exfalso. exact (Hnever _ _ Hgrant).
    + destruct Hs as [_ ->]. reflexivity.
Qed.

End PollForTokenFacts.

(** ** Properties of the suggestion service *)
Section SuggestionFacts.
Import Js Copilot.
Context `{DateParser}.

Lemma getCommandSuggestion_unfold (net : Network) (prompt a : string)
    (sessionContext : option string) (w : World) :
  getCommandSuggestion net prompt a sessionContext w =
  match suggest net prompt a sessionContext w with
  | (Returns s, w') => (Returns s, w')
  | (Throws e, w') => translate e w'
  end.
Proof. reflexivity. Qed.

Lemma translate_world (A : Type) (e : JsError) (w : World) :
  snd (translate (A := A) e w) = w.
Proof.
  destruct e as [m t|m]; simpl; [reflexivity|].
  destruct (includes m "fetch"); [reflexivity|].
  destruct (includes m "Copilot API error"); [reflexivity|].
  destruct (includes m "No command suggestion"); reflexivity.
Qed.

Lemma getCommandSuggestion_world (net : Network) (prompt a : string)
    (sessionContext : option string) (w : World) :
  snd (getCommandSuggestion net prompt a sessionContext w)
  = snd (suggest net prompt a sessionContext w).
Proof.
  rewrite getCommandSuggestion_unfold.
  destruct (suggest net prompt a sessionContext w) as [[s|e] w'];
    [reflexivity|apply translate_world].
Qed.

(** The broker issues no call or the token call. *)
Lemma getCopilotToken_calls (net : Network) (a : string) (w : World) :
  exists r d calls,
    getCopilotToken net a w = (r, mkWorld d (now w) (sent w ++ calls)) /\
    (calls = [] \/ calls = [GetToken a]).
Proof.
  rewrite getCopilotToken_unfold.
  destruct (Storage.getCopilotToken (disk w)) as [[token d]|].
  - destruct (date_gt d (now w)).
    + exists (Returns token), (disk w), []. rewrite app_nil_r.
      split; [now destruct w|now left].
    + destruct (fetchNewToken_one_call net a w) as (r & d' & ->). eauto 6.
  - destruct (fetchNewToken_one_call net a w) as (r & d' & ->). eauto 6.
Qed.

(** What the [try] block does once the broker has returned a token and
    the completion endpoint has answered outside 200..299. *)
Lemma suggest_not_ok (net : Network) (prompt a : string)
    (sessionContext : option string) (w w1 : World) (copilotToken : string)
    (status : Z) (body : Body CopilotResponse) :
  getCopilotToken net a w = (Returns copilotToken, w1) ->
  completionEndpoint net copilotToken (requestFor prompt sessionContext)
  = Response status body ->
  ok status = false ->
  let posted :=
    (sent w1 ++ [PostCompletion copilotToken (requestFor prompt sessionContext)])%list in
  suggest net prompt a sessionContext w =
  if (status =? 401) || (status =? 403) then
    (Throws (TokenExpiredError "Copilot token expired or invalid" copilot),
     mkWorld (Storage.clearCopilotToken (disk w1)) (now w1) posted)
  else
    (Throws (Error
       (if status =? 429 then
          "You have reached your Copilot usage limit. Please try again later."
        else if 500 <=? status then
          "GitHub Copilot service is currently unavailable. Please try again later."
        else if status =? 400 then
          "Invalid request to Copilot. Please try a different prompt."
        else "Unable to get a response from GitHub Copilot.")),
     mkWorld (disk w1) (now w1) posted).
Proof.
  intros Htok Hnet Hok posted. unfold suggest, bind. rewrite Htok.
  unfold fetch. rewrite Hnet, Hok.
  simpl negb. cbv iota.
  destruct ((status =? 401) || (status =? 403)); [reflexivity|].
  destruct (status =? 429); [reflexivity|].
  destruct (500 <=? status); [reflexivity|].
  destruct (status =? 400); reflexivity.
Qed.

(** The part of C3 on 401 and 403: the cached service token is cleared,
    the [TokenExpiredError] goes through the catch block unchanged, and
    the store holds no service token afterwards. *)
Lemma completion_auth_failure (net : Network) (prompt a : string)
    (sessionContext : option string) (w w1 : World) (copilotToken : string)
    (status : Z) (body : Body CopilotResponse) :
  getCopilotToken net a w = (Returns copilotToken, w1) ->
  completionEndpoint net copilotToken (requestFor prompt sessionContext)
  = Response status body ->
  status = 401 \/ status = 403 ->
  getCommandSuggestion net prompt a sessionContext w
  = (Throws (TokenExpiredError "Copilot token expired or invalid" copilot),
     mkWorld (Storage.clearCopilotToken (disk w1)) (now w1)
       (sent w1 ++ [PostCompletion copilotToken (requestFor prompt sessionContext)]))
  /\ Storage.getCopilotToken (Storage.clearCopilotToken (disk w1)) = None.
Proof.
  intros Htok Hnet Hst. split; [|apply getCopilotToken_clearCopilotToken].
  rewrite getCommandSuggestion_unfold.
  rewrite (suggest_not_ok _ _ _ _ _ _ _ _ _ Htok Hnet)
    by (unfold ok; destruct Hst as [-> | ->]; reflexivity).
  destruct Hst as [-> | ->]; reflexivity.
Qed.

(** The part of C3 on 400: the [try] block throws the invalid-request
    error, and the catch block replaces it by the generic one. *)
Lemma completion_invalid_request (net : Network) (prompt a : string)
    (sessionContext : option string) (w w1 : World) (copilotToken : string)
    (body : Body CopilotResponse) :
  getCopilotToken net a w = (Returns copilotToken, w1) ->
  completionEndpoint net copilotToken (requestFor prompt sessionContext)
  = Response 400 body ->
  let w2 :=
    mkWorld (disk w1) (now w1)
      (sent w1 ++ [PostCompletion copilotToken (requestFor prompt sessionContext)]) in
  suggest net prompt a sessionContext w
  = (Throws (Error "Invalid request to Copilot. Please try a different prompt."), w2)
  /\ getCommandSuggestion net prompt a sessionContext w
     = (Throws (Error "Unable to get command suggestion from GitHub Copilot. Please try again."),
        w2).
Proof.
  intros Htok Hnet w2.
  pose proof (suggest_not_ok _ _ _ _ _ _ _ _ _ Htok Hnet eq_refl) as Hs.
  simpl in Hs. split; [exact Hs|].
  rewrite getCommandSuggestion_unfold, Hs. reflexivity.
Qed.

(** Whatever the status outside 200..299 other than 401 and 403, the
    caller is given one and the same error. *)
Lemma completion_failure_translated (net : Network) (prompt a : string)
    (sessionContext : option string) (w w1 : World) (copilotToken : string)
    (status : Z) (body : Body CopilotResponse) :
  getCopilotToken net a w = (Returns copilotToken, w1) ->
  completionEndpoint net copilotToken (requestFor prompt sessionContext)
  = Response status body ->
  ok status = false -> status <> 401 -> status <> 403 ->
  getCommandSuggestion net prompt a sessionContext w
  = (Throws (Error "Unable to get command suggestion from GitHub Copilot. Please try again."),
     mkWorld (disk w1) (now w1)
       (sent w1 ++ [PostCompletion copilotToken (requestFor prompt sessionContext)])).
Proof.
  intros Htok Hnet Hok H401 H403.
  rewrite getCommandSuggestion_unfold.
  rewrite (suggest_not_ok _ _ _ _ _ _ _ _ _ Htok Hnet Hok).
  destruct ((status =? 401) || (status =? 403)) eqn:Hauth.
  - apply orb_true_iff in Hauth. lia.
  - destruct (status =? 429); [reflexivity|].
    destruct (500 <=? status); [reflexivity|].
    destruct (status =? 400); reflexivity.
Qed.

(** C9.  The message list has at most two messages: a system message
    that carries the session context exactly when a non-empty context is
    given, then one user message that contains the prompt as it is; and
    every completion call that [getCommandSuggestion] issues carries this
    list.  It issues that call whenever the broker returns a token,
    right after the calls of the broker and with that token, and issues
    no call of its own when the broker throws. *)
Theorem messages_composed (prompt : string) (sessionContext : option string) :
  let userMessage :=
    mkMessage user ("Generate a terminal command for: " ++ prompt ++ Session.nl
                    ++ "Provide only the command, no explanation.") in
  (length (prepareMessages prompt sessionContext) <= 2)%nat /\
  (forall c, sessionContext = Some c -> c <> "" ->
     exists text,
       prepareMessages prompt sessionContext
       = [mkMessage system (c ++ text); userMessage]) /\
  (sessionContext = None \/ sessionContext = Some "" ->
     prepareMessages prompt sessionContext = [userMessage]) /\
  (forall net a w,
     exists calls,
       sent (snd (getCommandSuggestion net prompt a sessionContext w))
       = (sent w ++ calls)%list /\
       forall copilotToken request,
         PostCompletion copilotToken request ∈ calls ->
         messages request = prepareMessages prompt sessionContext) /\
  (forall net a w copilotToken w1,
     getCopilotToken net a w = (Returns copilotToken, w1) ->
     sent (snd (getCommandSuggestion net prompt a sessionContext w))
     = (sent w1
        ++ [PostCompletion copilotToken
              (mkRequest false "claude-3.5-sonnet" 0 1 1 false
                 (prepareMessages prompt sessionContext))])%list) /\
  (forall net a w e w1,
     getCopilotToken net a w = (Throws e, w1) ->
     snd (getCommandSuggestion net prompt a sessionContext w) = w1).
Proof.
  intros userMessage. split; [|split; [|split; [|split; [|split]]]].
  - unfold prepareMessages. destruct (truthy_opt sessionContext); simpl; lia.
  - intros c -> Hc. apply truthy_true in Hc.
    unfold prepareMessages. simpl truthy_opt. rewrite Hc. simpl. eauto.
  - intros [-> | ->]; reflexivity.
  - intros net a w. rewrite getCommandSuggestion_world.
    destruct (getCopilotToken_calls net a w) as (r & d & calls0 & Htok & Hcalls0).
    assert (Hin0 : forall t q, PostCompletion t q ∈ calls0 -> False).
    { intros t q Hin. destruct Hcalls0 as [-> | ->].
      - now apply elem_of_nil in Hin.
      - apply list_elem_of_singleton in Hin. discriminate. }
    unfold suggest, bind. rewrite Htok.
    destruct r as [copilotToken|e].
    + unfold fetch.
      exists (calls0 ++ [PostCompletion copilotToken (requestFor prompt sessionContext)])%list.
      split.
      * rewrite app_assoc.
        destruct (completionEndpoint net copilotToken (requestFor prompt sessionContext))
          as [m|status body]; [reflexivity|].
        destruct (negb (ok status)).
        -- destruct ((status =? 401) || (status =? 403)); [reflexivity|].
           destruct (status =? 429); [reflexivity|].
           destruct (500 <=? status); [reflexivity|].
           destruct (status =? 400); reflexivity.
        -- destruct body as [m|data]; [reflexivity|]. simpl.
           destruct (negb (truthy_opt (trim <$> head (choices data))));
             reflexivity.
      * intros t q Hin. apply elem_of_app in Hin as [Hin|Hin].
        -- destruct (Hin0 _ _ Hin).
        -- apply list_elem_of_singleton in Hin. injection Hin as -> ->.
           reflexivity.
    + exists calls0. split; [reflexivity|].
      intros t q Hin. destruct (Hin0 _ _ Hin).
  - intros net a w copilotToken w1 Htok. rewrite getCommandSuggestion_world.
    unfold suggest, bind. rewrite Htok. unfold fetch, requestFor.
    destruct (completionEndpoint net copilotToken
                (mkRequest false "claude-3.5-sonnet" 0 1 1 false
                   (prepareMessages prompt sessionContext)))
      as [m|status body]; [reflexivity|].
    destruct (negb (ok status)).
    + destruct ((status =? 401) || (status =? 403)); [reflexivity|].
      destruct (status =? 429); [reflexivity|].
      destruct (500 <=? status); [reflexivity|].
      destruct (status =? 400); reflexivity.
    + destruct body as [m|data]; [reflexivity|]. simpl.
      destruct (negb (truthy_opt (trim <$> head (choices data))));
        reflexivity.
  - intros net a w e w1 Htok. rewrite getCommandSuggestion_world.
    unfold suggest, bind. now rewrite Htok.
Qed.

End SuggestionFacts.

(** ** The properties at concrete inputs *)
Section Instances.
Import Js Notions.

(** The store [Examples.expired] holds no fresh token on
    [Examples.today]. *)
Ltac expired_is_stale :=
  let Hd := fresh "Hd" in
  let He := fresh "He" in
  let Hms := fresh "Hms" in
  let Hlt := fresh "Hlt" in
  intros ? (? & ? & ? & Hd & _ & _ & He & _ & Hms & Hlt);
  injection Hd as <-; injection He as <-; injection Hms as <-;
  simpl in Hlt; unfold Examples.today in Hlt; lia.

(** C8 on a store with a cached service token: a new identity token
    keeps the service token readable, a new service token keeps the
    identity token. *)
Lemma writes_preserve_unrelated_slots_witness :
  Storage.getCopilotToken (H := Examples.oneDate)
    (Storage.saveTokens "gho_other" None None Examples.cached)
  = Some ("tid=cached", Some 2000000000000)
  /\ Storage.getToken (Storage.saveCopilotToken "tid=new"
                        (Storage.ExpiryNumber 2100000000) Examples.cached)
     = Some "gho_identity".
Proof.
  destruct (writes_preserve_unrelated_slots (H := Examples.oneDate))
    as (_ & Hservice & _ & Hidentity & _).
  split.
  - rewrite Hservice. reflexivity.
  - rewrite Hidentity. reflexivity.
Defined.

(** C1 on a store with a fresh token, and on one with an expired token. *)
Lemma cached_token_or_one_call_witness :
  Copilot.getCopilotToken (H := Examples.oneDate)
    (Examples.network 200 "tid=new" 200) "gho_identity"
    (Copilot.mkWorld Examples.cached Examples.today [])
  = (Copilot.Returns "tid=cached",
     Copilot.mkWorld Examples.cached Examples.today [])
  /\ exists r d,
       Copilot.getCopilotToken (H := Examples.oneDate)
         (Examples.network 200 "tid=new" 200) "gho_identity"
         (Copilot.mkWorld Examples.expired Examples.today [])
       = (r, Copilot.mkWorld d Examples.today [Copilot.GetToken "gho_identity"]).
Proof.
  split.
  - apply (proj1 (cached_token_or_one_call (H := Examples.oneDate) _ _ _)).
    eexists _, _, _. simpl.
    repeat split. discriminate.
  - apply (proj2 (cached_token_or_one_call (H := Examples.oneDate)
                    (Examples.network 200 "tid=new" 200) "gho_identity"
                    (Copilot.mkWorld Examples.expired Examples.today []))).
    expired_is_stale.
Defined.

(** C2 on a 401 answer: the expired service token is gone afterwards. *)
Lemma token_endpoint_failure_witness :
  exists d,
    Copilot.getCopilotToken (H := Examples.oneDate)
      (Examples.network 401 "" 200) "gho_identity"
      (Copilot.mkWorld Examples.expired Examples.today [])
    = (Copilot.Throws
         (Copilot.TokenExpiredError "GitHub access token expired or invalid"
                                    Copilot.github),
       Copilot.mkWorld d Examples.today [Copilot.GetToken "gho_identity"])
    /\ d = Examples.identityOnly.
Proof.
  destruct (token_endpoint_failure (H := Examples.oneDate)
              (Examples.network 401 "" 200) "gho_identity"
              (Copilot.mkWorld Examples.expired Examples.today [])
              401 (Copilot.JsonData (Examples.tokenReply "")))
    as (e & d & Hrun & Hauth & _).
  - expired_is_stale.
  - reflexivity.
  - reflexivity.
  - destruct (Hauth (or_introl eq_refl)) as (-> & -> & _).
    eexists. split; [exact Hrun|reflexivity].
Defined.

(** C7, as amended, on a store with an identity token and an expired
    service token, and on a missing token file. *)
Lemma refreshed_token_persisted_witness :
  Copilot.getCopilotToken (H := Examples.oneDate)
    (Examples.network 200 "tid=new" 200) "gho_identity"
    (Copilot.mkWorld Examples.expired Examples.today [])
  = (Copilot.Returns "tid=new",
     Copilot.mkWorld
       (Some (Storage.Json
                (Storage.mkTokenStorage (Some "gho_identity") (Some "tid=new")
                   (Some (Storage.ExpiryString "2030-01-01T00:00:00.000Z")) ∅)))
       Examples.today [Copilot.GetToken "gho_identity"])
  /\ Copilot.getCopilotToken (H := Examples.oneDate)
       (Examples.network 200 "tid=new" 200) "gho_identity"
       (Copilot.mkWorld None Examples.today [])
     = (Copilot.Returns "tid=new",
        Copilot.mkWorld None Examples.today [Copilot.GetToken "gho_identity"]).
Proof.
  split.
  - apply (proj1 (refreshed_token_persisted (H := Examples.oneDate)
                    (Examples.network 200 "tid=new" 200) "gho_identity"
                    (Copilot.mkWorld Examples.expired Examples.today [])
                    200 (Examples.tokenReply "tid=new")
                    ltac:(expired_is_stale) eq_refl eq_refl)
             (Storage.mkTokenStorage (Some "gho_identity") (Some "tid=old")
                (Some (Storage.ExpiryNumber 1600000000)) ∅)
             "gho_identity").
    + reflexivity.
    + reflexivity.
    + discriminate.
    + discriminate.
  - apply (proj2 (refreshed_token_persisted (H := Examples.oneDate)
                    (Examples.network 200 "tid=new" 200) "gho_identity"
                    (Copilot.mkWorld None Examples.today [])
                    200 (Examples.tokenReply "tid=new")
                    ltac:(intros token (data & e & ms & Hd & _); discriminate)
                    eq_refl eq_refl)).
    left. intros g (data & Hd & _). discriminate.
Defined.

(** C7, as stated, fails: without an identity token in the store, and
    also for an empty token, the refresh succeeds and returns the token
    but the store does not hold it afterwards. *)
Lemma refreshed_token_not_persisted :
  (Copilot.getCopilotToken (H := Examples.oneDate)
     (Examples.network 200 "tid=new" 200) "gho_identity"
     (Copilot.mkWorld None Examples.today [])
   = (Copilot.Returns "tid=new",
      Copilot.mkWorld None Examples.today [Copilot.GetToken "gho_identity"]))
  /\ (Copilot.getCopilotToken (H := Examples.oneDate)
        (Examples.network 200 "" 200) "gho_identity"
        (Copilot.mkWorld Examples.identityOnly Examples.today [])
      = (Copilot.Returns "",
         Copilot.mkWorld Examples.identityOnly Examples.today
           [Copilot.GetToken "gho_identity"])).
Proof. split; reflexivity. Qed.

(** C3, at a 400 answer of the completion endpoint.  The catch block
    lets only [TokenExpiredError] through and looks for three texts in
    the message of any other error; the text of the invalid-request error
    is none of them, so the caller is given the generic failure, the same
    as for 429, 5xx and every other status. *)
Theorem completion_400_reported_as_generic_failure :
  let w := Copilot.mkWorld Examples.cached Examples.today [] in
  let w' :=
    Copilot.mkWorld Examples.cached Examples.today
      [Copilot.PostCompletion "tid=cached"
         (Copilot.requestFor "list files" None)] in
    Copilot.suggest (H := Examples.oneDate) (Examples.network 200 "tid=new" 400)
      "list files" "gho_identity" None w
    = (Copilot.Throws
         (Copilot.Error "Invalid request to Copilot. Please try a different prompt."),
       w')
    /\ Copilot.getCommandSuggestion (H := Examples.oneDate)
         (Examples.network 200 "tid=new" 400) "list files" "gho_identity" None w
       = (Copilot.Throws
            (Copilot.Error
               "Unable to get command suggestion from GitHub Copilot. Please try again."),
          w')
    /\ Copilot.getCommandSuggestion (H := Examples.oneDate)
         (Examples.network 200 "tid=new" 429) "list files" "gho_identity" None w
       = (Copilot.Throws
            (Copilot.Error
               "Unable to get command suggestion from GitHub Copilot. Please try again."),
          w').
Proof.
  intros w w'. split; [|split]; vm_compute; reflexivity.
Qed.

(** The 403 scenario of C3: the service token slot is empty afterwards. *)
Lemma completion_auth_failure_instance :
  Copilot.getCommandSuggestion (H := Examples.oneDate)
    (Examples.network 200 "tid=new" 403) "list files" "gho_identity" None
    (Copilot.mkWorld Examples.cached Examples.today [])
  = (Copilot.Throws
       (Copilot.TokenExpiredError "Copilot token expired or invalid"
                                  Copilot.copilot),
     Copilot.mkWorld Examples.identityOnly Examples.today
       [Copilot.PostCompletion "tid=cached"
          (Copilot.requestFor "list files" None)]).
Proof.
  apply (completion_auth_failure (H := Examples.oneDate)
           (Examples.network 200 "tid=new" 403) "list files" "gho_identity" None
           (Copilot.mkWorld Examples.cached Examples.today [])
           (Copilot.mkWorld Examples.cached Examples.today [])
           "tid=cached" 403 (Copilot.JsonData (Copilot.mkResponse ["ls -la"]))).
  - vm_compute. reflexivity.
  - reflexivity.
  - now right.
Defined.

(** C4, as stated, fails: after one [addSessionEntry] under a clock that
    advances, [lastUpdatedAt] is the reading that [saveSession] takes,
    later than the timestamp of the entry; and under a clock that is set
    back between two calls the timestamps decrease. *)
Lemma lastUpdatedAt_not_last_timestamp :
  (let created := Session.createSession "session-1" Examples.ticking in
   let session' :=
     fst (Session.calls [Session.Append "list files" None None]
                        (fst created) (snd created)) in
   exists e,
     last (Session.entries session') = Some e /\
     Session.timestamp e = 1 /\
     Session.lastUpdatedAt session' = 2 /\
     Session.lastUpdatedAt session' <> Session.timestamp e) /\
  (let created := Session.createSession "session-1" Examples.setBack in
   let session' :=
     fst (Session.calls [Session.Append "list files" None None;
                         Session.Append "print the date" None None]
                        (fst created) (snd created)) in
   Session.timestamp <$> Session.entries session' = [100; 50] /\
   ~ nondecreasing (Session.timestamp <$> Session.entries session')).
Proof.
  split.
  - lazy zeta. eexists. split; [reflexivity|]. split; [reflexivity|].
    split; [reflexivity|]. discriminate.
  - lazy zeta. split; [reflexivity|].
    intros Hnd. specialize (Hnd 0%nat 1%nat 100 50).
    assert (100 <= 50) by (apply Hnd; [lia|reflexivity|reflexivity]). lia.
Qed.

(** C4, as amended, on three calls after [createSession]. *)
Lemma session_timestamps_ordered_witness :
  let created := Session.createSession "session-1" Examples.ticking in
  let session' :=
    fst (Session.calls
           [Session.Append "list files" None None;
            Session.UpdateLast (Some "ls -la") (Some true) (Some "file1");
            Session.Append "print the date" (Some "date") None]
           (fst created) (snd created)) in
  nondecreasing (Session.timestamp <$> Session.entries session') /\
  (forall e, last (Session.entries session') = Some e ->
             Session.timestamp e <= Session.lastUpdatedAt session').
Proof.
  intros created session'.
  apply (session_timestamps_ordered _ (fst created) (snd created)).
  - intros k. simpl. lia.
  - apply (createSession_stamped "session-1" Examples.ticking).
Defined.

(** C5, as stated, fails: with limit 0 every entry is rendered, and for
    an entry without a command an output longer than 500 characters is
    left out, marker included. *)
Lemma context_blocks_counterexample :
  (Z.of_nat (length (renderedBlocks Examples.threeEntries 0)) = 3 /\
   Z.min 0 (Z.of_nat (length (Session.entries Examples.threeEntries))) = 0) /\
  ((500 < String.length Examples.longOutput)%nat /\
   Session.getSessionContext Examples.noCommand (Some 5)
   = "Previous commands:" ++ Session.nl ++ Session.nl
     ++ "[1] User: show the log" ++ Session.nl ++ Session.nl /\
   includes (Session.getSessionContext Examples.noCommand (Some 5))
            "... [output truncated]" = false).
Proof.
  split; [split; reflexivity|].
  split; [vm_compute; lia|]. split; vm_compute; reflexivity.
Qed.

(** The context of one executed command: one block, the second line of
    the output indented, no truncation marker. *)
Example context_of_one_entry :
  Session.getSessionContext Examples.oneEntry (Some 5)
  = "Previous commands:" ++ Session.nl ++ Session.nl
    ++ "[1] User: list files" ++ Session.nl
    ++ "    Command: ls -la" ++ Session.nl
    ++ "    Executed: Yes" ++ Session.nl
    ++ "    Output: file1" ++ Session.nl ++ "      file2" ++ Session.nl
    ++ Session.nl.
Proof. vm_compute. reflexivity. Qed.

(** C5, as amended, on three entries with limit 2. *)
Lemma context_renders_recent_entries_witness :
  Session.getSessionContext Examples.threeEntries (Some 2)
  = ("Previous commands:" ++ Session.nl ++ Session.nl)
    ++ join (renderedBlocks Examples.threeEntries 2)
  /\ length (renderedBlocks Examples.threeEntries 2) = 2%nat.
Proof.
  destruct (context_renders_recent_entries Examples.threeEntries 2)
    as (_ & Hcontext & Hlength & _); [lia|].
  split; [exact Hcontext|exact Hlength].
Defined.

(** C6 on three pending answers and a token in the fourth: three waits
    of 5000 ms, and the token of the fourth answer. *)
Lemma pollForToken_returns_granted_token_witness :
  Auth.pollForToken 10 Examples.grantedFourth "device-code" 5
  = ([Auth.Fetch "device-code"; Auth.Sleep 5000;
      Auth.Fetch "device-code"; Auth.Sleep 5000;
      Auth.Fetch "device-code"; Auth.Sleep 5000;
      Auth.Fetch "device-code"],
     Some "gho_fourth").
Proof.
  apply (proj1 (proj2 (pollForToken_returns_granted_token
                         Examples.grantedFourth "device-code" 5))
           3%nat "gho_fourth").
  - split; [reflexivity|discriminate].
  - intros j Hj t [Hr _].
    destruct j as [|[|[|j]]]; try discriminate Hr. lia.
  - lia.
Defined.

(** C9 on an empty and on a non-empty context, and on a call with a
    cached service token: the one call is the completion request with
    the composed messages. *)
Lemma messages_composed_witness :
  Copilot.prepareMessages "list files" (Some "")
  = [Copilot.mkMessage Copilot.user
       ("Generate a terminal command for: " ++ "list files" ++ Session.nl
        ++ "Provide only the command, no explanation.")]
  /\ (exists text,
        Copilot.prepareMessages "list files" (Some "Previous commands:")
        = [Copilot.mkMessage Copilot.system ("Previous commands:" ++ text);
           Copilot.mkMessage Copilot.user
             ("Generate a terminal command for: " ++ "list files" ++ Session.nl
              ++ "Provide only the command, no explanation.")])
  /\ Copilot.sent
       (snd (Copilot.getCommandSuggestion (H := Examples.oneDate)
               (Examples.network 200 "tid=new" 200) "list files" "gho_identity"
               (Some "Previous commands:")
               (Copilot.mkWorld Examples.cached Examples.today [])))
     = [Copilot.PostCompletion "tid=cached"
          (Copilot.mkRequest false "claude-3.5-sonnet" 0 1 1 false
             (Copilot.prepareMessages "list files" (Some "Previous commands:")))].
Proof.
  split; [|split].
  - apply (proj1 (proj2 (proj2
             (messages_composed (H := Examples.oneDate) "list files" (Some ""))))).
    now right.
  - apply (proj1 (proj2
             (messages_composed (H := Examples.oneDate) "list files"
                (Some "Previous commands:")))
             "Previous commands:"); [reflexivity|discriminate].
  - apply (proj1 (proj2 (proj2 (proj2 (proj2
             (messages_composed (H := Examples.oneDate) "list files"
                (Some "Previous commands:"))))))
             (Examples.network 200 "tid=new" 200) "gho_identity"
             (Copilot.mkWorld Examples.cached Examples.today [])
             "tid=cached"
             (Copilot.mkWorld Examples.cached Examples.today [])).
    vm_compute. reflexivity.
Defined.

(** C10 on a session without entries. *)
Lemma context_never_empty_witness :
  Session.getSessionContext (Session.mkSession "session-1" 0 0 []) None <> ""
  /\ length (Copilot.prepareMessages "list files"
               (Some (Session.getSessionContext
                        (Session.mkSession "session-1" 0 0 []) None))) = 2%nat.
Proof.
  destruct (context_never_empty (Session.mkSession "session-1" 0 0 []) None
              "list files") as (_ & Hne & _ & _ & (text & userMessage & Hm)).
  split; [exact Hne|]. rewrite Hm. reflexivity.
Defined.

End Instances.

(** ** More on the token file *)
Section TokenFileFacts.
Import Js Storage.
Context `{DateParser}.

Lemma getToken_saveCopilotToken (token : string) (e : Expiry) (disk : Disk) :
  getToken (saveCopilotToken token e disk) = getToken disk.
Proof.
  unfold saveCopilotToken.
  destruct (getToken disk) as [g|] eqn:Hg; [|exact Hg].
  pose proof Hg as Hid. apply getToken_Some in Hid as (data & -> & Hd & Hne).
  apply truthy_true in Hne. unfold saveTokens, getToken.
  destruct (truthy_opt (Some token)); simpl; now rewrite Hne.
Qed.

(** X1.  Whatever the token file was (missing, unparseable, or parsed),
    after [saveTokens] with the identity token [g] the reader [getToken]
    gives [g] back, unless [g] is empty: an empty identity token is
    written but read as absent. *)
Theorem saved_identity_is_read_back (g : string) (c : option string)
    (e : option Expiry) (disk : Disk) :
  getToken (saveTokens g c e disk) = if truthy g then Some g else None.
Proof.
  unfold saveTokens, getToken.
  destruct disk as [[raw|data]|]; destruct (truthy_opt c); reflexivity.
Qed.

(** X2.  After [saveTokens] with a non-empty service token, the reader
    [getCopilotToken] gives the token back with the date of the expiry
    when an expiry that is not falsy was passed; without an expiry
    argument the stored expiry is removed and the token is not readable
    at all. *)
Theorem saved_service_token_is_read_back (g t : string) (e : option Expiry)
    (disk : Disk) :
  t <> "" ->
  getCopilotToken (saveTokens g (Some t) e disk)
  = match e with
    | Some e' => if expiry_truthy e' then Some (t, expiry_date e') else None
    | None => None
    end.
Proof.
  intros Ht. apply truthy_true in Ht.
  unfold saveTokens, getCopilotToken. simpl truthy_opt. rewrite Ht.
  destruct disk as [[raw|data]|]; simpl; rewrite Ht; destruct e; reflexivity.
Qed.

(** X3.  Clearing the service token is idempotent, leaves a file that
    does not parse as it is, and is not undone by saving the identity
    token afterwards: the reader finds no service token then. *)
Theorem cleared_service_token_stays_cleared (g : string) (disk : Disk) :
  clearCopilotToken (clearCopilotToken disk) = clearCopilotToken disk /\
  (forall raw, disk = Some (Unparseable raw) -> clearCopilotToken disk = disk) /\
  getCopilotToken (saveTokens g None None (clearCopilotToken disk)) = None.
Proof.
  split; [|split].
  - now destruct disk as [[raw|data]|].
  - now intros raw ->.
  - now destruct disk as [[raw|data]|].
Qed.

End TokenFileFacts.

(** ** More on the token broker and the suggestion service *)
Section PipelineFacts.
Import Js Copilot MoreNotions.
Context `{DateParser}.

(** The broker leaves the identity token and the time as they are. *)
Lemma fetchNewToken_frame (net : Network) (a : string) (w : World) :
  Storage.getToken (disk (snd (fetchNewToken net a w))) = Storage.getToken (disk w)
  /\ now (snd (fetchNewToken net a w)) = now w.
Proof.
  unfold fetchNewToken, bind, fetch.
  destruct (tokenEndpoint net a) as [message|status body]; [now split|].
  destruct (negb (ok status)).
  - destruct ((status =? 401) || (status =? 403)).
    + simpl. split; [apply getToken_clearCopilotToken|reflexivity].
    + destruct (status =? 429); [now split|].
      destruct (500 <=? status); now split.
  - destruct body as [message|data]; simpl; [now split|].
    split; [apply getToken_saveCopilotToken|reflexivity].
Qed.

Lemma getCopilotToken_frame (net : Network) (a : string) (w : World) :
  Storage.getToken (disk (snd (getCopilotToken net a w))) = Storage.getToken (disk w)
  /\ now (snd (getCopilotToken net a w)) = now w.
Proof.
  rewrite getCopilotToken_unfold.
  destruct (Storage.getCopilotToken (disk w)) as [[token d]|];
    [destruct (date_gt d (now w)); [now split|]|]; apply fetchNewToken_frame.
Qed.

(** The errors of the broker. *)
Lemma getCopilotToken_throws (net : Network) (a : string) (w w' : World)
    (e : JsError) :
  getCopilotToken net a w = (Throws e, w') ->
  e = TokenExpiredError "GitHub access token expired or invalid" github \/
  exists message, e = Error message.
Proof.
  rewrite getCopilotToken_unfold.
  assert (Hnew : fetchNewToken net a w = (Throws e, w') ->
                 e = TokenExpiredError "GitHub access token expired or invalid" github \/
                 exists message, e = Error message).
  { unfold fetchNewToken, bind, fetch.
    destruct (tokenEndpoint net a) as [message|status body];
      [intros [= <- _]; eauto|].
    destruct (negb (ok status)).
    - destruct ((status =? 401) || (status =? 403)); [intros [= <- _]; eauto|].
      destruct (status =? 429); [intros [= <- _]; eauto|].
      destruct (500 <=? status); intros [= <- _]; eauto.
    - destruct body as [message|data]; simpl; [intros [= <- _]; eauto|].
      discriminate. }
  destruct (Storage.getCopilotToken (disk w)) as [[token d]|]; [|exact Hnew].
  destruct (date_gt d (now w)); [discriminate|exact Hnew].
Qed.

(** What the [try] block comes to after the broker has returned. *)
Lemma suggest_after_token (net : Network) (prompt a : string)
    (sessionContext : option string) (w w1 : World) (copilotToken : string) :
  getCopilotToken net a w = (Returns copilotToken, w1) ->
  let request := requestFor prompt sessionContext in
  let posted := (sent w1 ++ [PostCompletion copilotToken request])%list in
  suggest net prompt a sessionContext w =
  match completionEndpoint net copilotToken request with
  | FetchRejects message =>
      (Throws (Error message), mkWorld (disk w1) (now w1) posted)
  | Response status body =>
      if negb (ok status) then
        if (status =? 401) || (status =? 403) then
          (Throws (TokenExpiredError "Copilot token expired or invalid" copilot),
           mkWorld (Storage.clearCopilotToken (disk w1)) (now w1) posted)
        else
          (Throws (Error
             (if status =? 429 then
                "You have reached your Copilot usage limit. Please try again later."
              else if 500 <=? status then
                "GitHub Copilot service is currently unavailable. Please try again later."
              else if status =? 400 then
                "Invalid request to Copilot. Please try a different prompt."
              else "Unable to get a response from GitHub Copilot.")),
           mkWorld (disk w1) (now w1) posted)
      else
        match body with
        | JsonRejects message =>
            (Throws (Error message), mkWorld (disk w1) (now w1) posted)
        | JsonData data =>
            let suggestion := trim <$> head (choices data) in
            if truthy_opt suggestion
            then (Returns (default "" suggestion),
                  mkWorld (disk w1) (now w1) posted)
            else (Throws (Error "No command suggestion received"),
                  mkWorld (disk w1) (now w1) posted)
        end
  end.
Proof.
  intros Htok request posted. unfold suggest, bind. rewrite Htok.
  fold request. unfold fetch.
  destruct (completionEndpoint net copilotToken request) as [m|status body];
    [reflexivity|].
  destruct (negb (ok status)).
  - destruct ((status =? 401) || (status =? 403)); [reflexivity|].
    destruct (status =? 429); [reflexivity|].
    destruct (500 <=? status); [reflexivity|].
    destruct (status =? 400); reflexivity.
  - destruct body as [m|data]; [reflexivity|]. simpl.
    destruct (truthy_opt (trim <$> head (choices data))); reflexivity.
Qed.

End PipelineFacts.

Section PipelineProperties.
Import Js Copilot Notions MoreNotions.
Context `{DateParser}.

Lemma fetchNewToken_ok (net : Network) (a : string) (w : World) (status : Z)
    (data : TokenResponse) :
  tokenEndpoint net a = Response status (JsonData data) ->
  ok status = true ->
  fetchNewToken net a w
  = (Returns (token data),
     mkWorld (Storage.saveCopilotToken (token data) (expires_at data) (disk w))
             (now w) (sent w ++ [GetToken a])).
Proof.
  intros Hnet Hok. unfold fetchNewToken, bind, fetch.
  rewrite Hnet, Hok. reflexivity.
Qed.

Lemma fetchNewToken_not_ok (net : Network) (a : string) (w : World)
    (status : Z) (body : Body TokenResponse) :
  tokenEndpoint net a = Response status body ->
  ok status = false ->
  fetchNewToken net a w =
  if (status =? 401) || (status =? 403) then
    (Throws (TokenExpiredError "GitHub access token expired or invalid" github),
     mkWorld (Storage.clearCopilotToken (disk w)) (now w)
             (sent w ++ [GetToken a]))
  else
    (Throws (Error
       (if status =? 429 then "Rate limit exceeded. Please try again later."
        else if 500 <=? status then
          "GitHub service is currently unavailable. Please try again later."
        else "Unable to authenticate with GitHub Copilot.")),
     mkWorld (disk w) (now w) (sent w ++ [GetToken a])).
Proof.
  intros Hnet Hok. unfold fetchNewToken, bind, fetch.
  rewrite Hnet, Hok. simpl negb. cbv iota.
  destruct ((status =? 401) || (status =? 403)); [reflexivity|].
  destruct (status =? 429); [reflexivity|].
  destruct (500 <=? status); reflexivity.
Qed.

Lemma suggest_broker_throws (net : Network) (prompt a : string)
    (sessionContext : option string) (w w1 : World) (e : JsError) :
  getCopilotToken net a w = (Throws e, w1) ->
  suggest net prompt a sessionContext w = (Throws e, w1).
Proof. intros Htok. unfold suggest, bind. now rewrite Htok. Qed.

(** X4.  A token that a refresh has stored is reused: when the refresh
    succeeds with a non-empty token on a store that holds an identity
    token, every later call of the broker at a time before the date of
    the expiry as received returns that token and issues no call. *)
Theorem refreshed_token_is_reused (net net' : Network) (a a' : string)
    (w : World) (status : Z) (data : TokenResponse)
    (stored : Storage.TokenStorage) (g : string) (ms now' : Z)
    (log : list HttpCall) :
  (forall token, ~ holdsFreshToken (disk w) (now w) token) ->
  tokenEndpoint net a = Response status (JsonData data) ->
  ok status = true ->
  disk w = Some (Storage.Json stored) ->
  Storage.githubToken stored = Some g -> g <> "" ->
  token data <> "" ->
  Storage.expiry_truthy (expires_at data) = true ->
  Storage.expiry_date (expires_at data) = Some ms ->
  now' < ms ->
  let w1 := snd (getCopilotToken net a w) in
  getCopilotToken net' a' (mkWorld (disk w1) now' log)
  = (Returns (token data), mkWorld (disk w1) now' log).
Proof.
  intros Hno Hnet Hok Hdisk Hg Hgne Hne Het Hed Hlt w1.
  apply getCopilotToken_hit. subst w1.
  rewrite (getCopilotToken_miss _ _ _ Hno), (fetchNewToken_ok _ _ _ _ _ Hnet Hok).
  simpl. rewrite Hdisk, (saveCopilotToken_stores stored g) by assumption.
  eexists _, _, ms. repeat split; eauto.
Qed.

(** X5.  A call of [getCommandSuggestion], however it ends, leaves the
    identity token of the store as it was, and issues at most two calls:
    possibly the token request, then possibly the completion request
    with the request built from the prompt and the context. *)
Theorem suggestion_keeps_identity (net : Network) (prompt a : string)
    (sessionContext : option string) (w : World) :
  let w' := snd (getCommandSuggestion net prompt a sessionContext w) in
  Storage.getToken (disk w') = Storage.getToken (disk w) /\
  now w' = now w /\
  exists pre post,
    sent w' = (sent w ++ pre ++ post)%list /\
    (pre = [] \/ pre = [GetToken a]) /\
    (post = [] \/
     exists t, post = [PostCompletion t (requestFor prompt sessionContext)]).
Proof.
  intros w'. subst w'. rewrite getCommandSuggestion_world.
  destruct (getCopilotToken_frame net a w) as [Hid Hnow].
  destruct (getCopilotToken_calls net a w) as (r & d & pre & Htok & Hpre).
  rewrite Htok in Hid, Hnow. simpl in Hid, Hnow.
  destruct r as [t|e].
  - rewrite (suggest_after_token _ _ _ _ _ _ _ Htok). simpl.
    assert (Hpost : forall d',
               Storage.getToken d' = Storage.getToken (disk w) ->
               Storage.getToken d' = Storage.getToken (disk w) /\
               now w = now w /\
               exists pre0 post,
                 ((sent w ++ pre) ++ [PostCompletion t (requestFor prompt sessionContext)])%list
                 = (sent w ++ pre0 ++ post)%list /\
                 (pre0 = [] \/ pre0 = [GetToken a]) /\
                 (post = [] \/
                  exists t0, post = [PostCompletion t0 (requestFor prompt sessionContext)])).
    { intros d' Hd'. split; [exact Hd'|]. split; [reflexivity|].
      exists pre, [PostCompletion t (requestFor prompt sessionContext)].
      rewrite <- app_assoc. eauto. }
    destruct (completionEndpoint net t (requestFor prompt sessionContext))
      as [m|status body]; [apply Hpost, Hid|].
    destruct (negb (ok status)).
    + destruct ((status =? 401) || (status =? 403)); simpl.
      * apply Hpost. now rewrite getToken_clearCopilotToken.
      * apply Hpost, Hid.
    + destruct body as [m|data]; [apply Hpost, Hid|]. cbv zeta.
      destruct (truthy_opt (trim <$> head (choices data))); apply Hpost, Hid.
  - rewrite (suggest_broker_throws _ _ _ _ _ _ _ Htok). simpl.
    split; [exact Hid|]. split; [reflexivity|].
    exists pre, []. rewrite app_nil_r. auto.
Qed.

Lemma suggest_throws (net : Network) (prompt a : string)
    (sessionContext : option string) (w w' : World) (e : JsError) :
  suggest net prompt a sessionContext w = (Throws e, w') ->
  e = TokenExpiredError "GitHub access token expired or invalid" github \/
  e = TokenExpiredError "Copilot token expired or invalid" copilot \/
  exists message, e = Error message.
Proof.
  destruct (getCopilotToken net a w) as [[t|e1] w1] eqn:Htok.
  - rewrite (suggest_after_token _ _ _ _ _ _ _ Htok).
    destruct (completionEndpoint net t (requestFor prompt sessionContext))
      as [m|status body]; [intros [= <- _]; eauto|].
    destruct (negb (ok status)).
    + destruct ((status =? 401) || (status =? 403)); intros [= <- _]; eauto.
    + destruct body as [m|data]; [intros [= <- _]; eauto|]. cbv zeta.
      destruct (truthy_opt (trim <$> head (choices data)));
        [discriminate|intros [= <- _]; eauto].
  - rewrite (suggest_broker_throws _ _ _ _ _ _ _ Htok). intros [= <- _].
    destruct (getCopilotToken_throws _ _ _ _ _ Htok) as [->|[m ->]]; eauto.
Qed.

(** X6.  Whatever the endpoints answer, an error that
    [getCommandSuggestion] throws is one of six: the two token-expired
    errors, or an [Error] with one of four fixed texts.  No text that
    comes from the network reaches the caller. *)
Theorem shown_errors_are_fixed (net : Network) (prompt a : string)
    (sessionContext : option string) (w w' : World) (e : JsError) :
  getCommandSuggestion net prompt a sessionContext w = (Throws e, w') ->
  userFacing e.
Proof.
  rewrite getCommandSuggestion_unfold.
  destruct (suggest net prompt a sessionContext w) as [[s|e0] w0] eqn:Hs;
    [discriminate|].
  unfold userFacing.
  destruct (suggest_throws _ _ _ _ _ _ _ Hs) as [->|[->|[m ->]]].
  - intros [= <- _]. auto.
  - intros [= <- _]. auto.
  - simpl. destruct (includes m "fetch"); [intros [= <- _]; auto 10|].
    destruct (includes m "Copilot API error"); [intros [= <- _]; auto 10|].
    destruct (includes m "No command suggestion"); intros [= <- _]; auto 10.
Qed.

Lemma trimStart_blank (s : string) : blank s = true -> trimStart s = "".
Proof.
  induction s as [|c s IH]; [reflexivity|]. simpl.
  intros Hb. apply andb_true_iff in Hb as [Hc Hs]. rewrite Hc. auto.
Qed.

(** X7.  A 2xx answer of the completion endpoint without choices, or
    with a first choice that is empty or only white space, is not
    returned: the caller gets the unable-to-generate error, and the store
    is as the broker left it. *)
Theorem blank_suggestion_is_an_error (net : Network) (prompt a : string)
    (sessionContext : option string) (w w1 : World) (t : string)
    (status : Z) (data : CopilotResponse) :
  getCopilotToken net a w = (Returns t, w1) ->
  completionEndpoint net t (requestFor prompt sessionContext)
  = Response status (JsonData data) ->
  ok status = true ->
  (forall c, head (choices data) = Some c -> blank c = true) ->
  getCommandSuggestion net prompt a sessionContext w
  = (Throws (Error "Copilot was unable to generate a command for your request. Please try rephrasing."),
     mkWorld (disk w1) (now w1)
       (sent w1 ++ [PostCompletion t (requestFor prompt sessionContext)])).
Proof.
  intros Htok Hnet Hok Hblank.
  rewrite getCommandSuggestion_unfold, (suggest_after_token _ _ _ _ _ _ _ Htok).
  cbv zeta. rewrite Hnet, Hok. simpl negb. cbv iota.
  assert (Hfalsy : truthy_opt (trim <$> head (choices data)) = false).
  { destruct (head (choices data)) as [c|]; [|reflexivity]. simpl.
    unfold trim. now rewrite (trimStart_blank c (Hblank c eq_refl)). }
  rewrite Hfalsy. reflexivity.
Qed.

(** X8.  A suggestion that [getCommandSuggestion] returns is never the
    empty string, and it comes from a completion request issued in this
    very call: the last call of the log is that request. *)
Theorem returned_suggestion_is_fresh (net : Network) (prompt a : string)
    (sessionContext : option string) (w w' : World) (s : string) :
  getCommandSuggestion net prompt a sessionContext w = (Returns s, w') ->
  s <> "" /\
  exists t, last (sent w')
            = Some (PostCompletion t (requestFor prompt sessionContext)).
Proof.
  rewrite getCommandSuggestion_unfold.
  destruct (suggest net prompt a sessionContext w) as [[s0|e0] w0] eqn:Hs.
  - intros [= <- <-].
    destruct (getCopilotToken net a w) as [[t|e1] w1] eqn:Htok.
    + rewrite (suggest_after_token _ _ _ _ _ _ _ Htok) in Hs.
      destruct (completionEndpoint net t (requestFor prompt sessionContext))
        as [m|status body]; [discriminate|].
      destruct (negb (ok status)).
      * destruct ((status =? 401) || (status =? 403)); discriminate.
      * destruct body as [m|data]; [discriminate|]. cbv zeta in Hs.
        destruct (trim <$> head (choices data)) as [c|] eqn:Hc;
          [|discriminate].
        simpl in Hs. destruct (truthy c) eqn:Htc; [|discriminate].
        injection Hs as <- <-. split; [now apply truthy_true|].
        exists t. simpl. apply last_snoc.
    + rewrite (suggest_broker_throws _ _ _ _ _ _ _ Htok) in Hs. discriminate.
  - intros Ht. exfalso. destruct e0 as [m ty|m]; simpl in Ht; [discriminate|].
    destruct (includes m "fetch"); [discriminate|].
    destruct (includes m "Copilot API error"); [discriminate|].
    destruct (includes m "No command suggestion"); discriminate.
Qed.

(** X9.  When the token endpoint answers outside 200..299, the
    completion endpoint is not called at all: the token request is the
    only call.  On 401 and 403 the caller gets the token-expired error of
    type [github] and the cached service token is cleared; on any other
    status it gets the generic error and the store is untouched. *)
Theorem broker_failure_skips_completion (net : Network) (prompt a : string)
    (sessionContext : option string) (w : World) (status : Z)
    (body : Body TokenResponse) :
  (forall token, ~ holdsFreshToken (disk w) (now w) token) ->
  tokenEndpoint net a = Response status body ->
  ok status = false ->
  exists e d,
    getCommandSuggestion net prompt a sessionContext w
    = (Throws e, mkWorld d (now w) (sent w ++ [GetToken a])) /\
    (status = 401 \/ status = 403 ->
       e = TokenExpiredError "GitHub access token expired or invalid" github /\
       d = Storage.clearCopilotToken (disk w)) /\
    (status <> 401 -> status <> 403 ->
       e = Error "Unable to get command suggestion from GitHub Copilot. Please try again."
       /\ d = disk w).
Proof.
  intros Hno Hnet Hok.
  pose proof (getCopilotToken_miss net a w Hno) as Hmiss.
  rewrite (fetchNewToken_not_ok _ _ _ _ _ Hnet Hok) in Hmiss.
  rewrite getCommandSuggestion_unfold.
  destruct ((status =? 401) || (status =? 403)) eqn:Hauth.
  - rewrite (suggest_broker_throws _ _ _ _ _ _ _ Hmiss).
    apply orb_true_iff in Hauth.
    do 2 eexists. split; [reflexivity|]. split; [auto|]. intros; lia.
  - rewrite (suggest_broker_throws _ _ _ _ _ _ _ Hmiss).
    apply orb_false_iff in Hauth as [H401 H403].
    exists (Error "Unable to get command suggestion from GitHub Copilot. Please try again."),
           (disk w).
    split; [|split; [intros; lia|auto]].
    destruct (status =? 429); [reflexivity|].
    destruct (500 <=? status); reflexivity.
Qed.

(** X10.  After [clearCopilotTokenCache] the next call of the broker
    goes to the network, however fresh the cached token was; the reset
    itself issues no call and keeps the identity token. *)
Theorem cache_reset_forces_refresh (net : Network) (a : string) (w : World) :
  let w1 := snd (CopilotCache.clearCopilotTokenCache w) in
  Storage.getToken (disk w1) = Storage.getToken (disk w) /\
  sent w1 = sent w /\
  exists r d,
    getCopilotToken net a w1 = (r, mkWorld d (now w) (sent w ++ [GetToken a])).
Proof.
  simpl. split; [apply getToken_clearCopilotToken|]. split; [reflexivity|].
  rewrite getCopilotToken_unfold. simpl disk.
  rewrite getCopilotToken_clearCopilotToken.
  apply (fetchNewToken_one_call net a
           (mkWorld (Storage.clearCopilotToken (disk w)) (now w) (sent w))).
Qed.

End PipelineProperties.

(** ** More on the session log *)
Section SessionLogFacts.
Import Js Session Notions MoreNotions.

(** One call keeps the identifier and the creation time, writes the file
    of the session only, and leaves in it the session it returns. *)
Lemma call_persisted (c : Call) (session : SessionData) (sys : Sys) :
  sessionFiles sys !! id session = Some session ->
  id (fst (call c session sys)) = id session /\
  sessionFiles (snd (call c session sys)) !! id session
  = Some (fst (call c session sys)) /\
  (forall other, other <> id session ->
     sessionFiles (snd (call c session sys)) !! other
     = sessionFiles sys !! other).
Proof.
  intros Hfile. destruct c as [p cmd ex|cmd ex out]; simpl.
  - split; [reflexivity|]. split; [apply lookup_insert_eq|].
    intros other Hne. now apply lookup_insert_ne.
  - unfold updateLastSessionEntry.
    destruct (0 <? length (entries session))%nat; simpl.
    + split; [reflexivity|]. split; [apply lookup_insert_eq|].
      intros other Hne. now apply lookup_insert_ne.
    + auto.
Qed.

Lemma calls_persisted (cs : list Call) (session : SessionData) (sys : Sys) :
  sessionFiles sys !! id session = Some session ->
  id (fst (calls cs session sys)) = id session /\
  sessionFiles (snd (calls cs session sys)) !! id session
  = Some (fst (calls cs session sys)) /\
  (forall other, other <> id session ->
     sessionFiles (snd (calls cs session sys)) !! other
     = sessionFiles sys !! other).
Proof.
  revert session sys. induction cs as [|c cs IH]; intros session sys Hfile.
  - simpl. auto.
  - simpl. unfold bind.
    destruct (call_persisted c session sys Hfile) as (Hid & Hfile' & Hframe).
    destruct (call c session sys) as [session' sys'] eqn:Hcall. simpl in *.
    rewrite <- Hid in Hfile'.
    destruct (IH session' sys' Hfile') as (Hid2 & Hfile2 & Hframe2).
    rewrite Hid in Hid2, Hfile2, Hframe2.
    split; [exact Hid2|]. split; [exact Hfile2|].
    intros other Hne. rewrite Hframe2 by exact Hne. now apply Hframe.
Qed.

(** X11.  The file of a session follows the session: after
    [createSession] and any sequence of [addSessionEntry] and
    [updateLastSessionEntry] calls, [loadSession] on the identifier gives
    exactly the session in memory, and the file of no other session has
    been written. *)
Theorem session_file_follows_session (cs : list Call) (sessionId : string)
    (sys : Sys) :
  let created := createSession sessionId sys in
  let run := calls cs (fst created) (snd created) in
  fst (loadSession sessionId (snd run)) = Some (fst run) /\
  id (fst run) = sessionId /\
  (forall other, other <> sessionId ->
     sessionFiles (snd run) !! other = sessionFiles sys !! other).
Proof.
  intros created run.
  assert (Hfile : sessionFiles (snd created) !! id (fst created)
                  = Some (fst created)) by apply lookup_insert_eq.
  destruct (calls_persisted cs (fst created) (snd created) Hfile)
    as (Hid & Hfile' & Hframe).
  split; [exact Hfile'|]. split; [exact Hid|].
  intros other Hne. fold run in Hframe. rewrite (Hframe other Hne).
  simpl. now apply lookup_insert_ne.
Qed.

(** One call keeps what is there and adds at most one entry. *)
Lemma call_only_appends (c : Call) (session : SessionData) (sys : Sys) :
  let session' := fst (call c session sys) in
  id session' = id session /\
  createdAt session' = createdAt session /\
  length (entries session')
  = (length (entries session) + appends [c])%nat /\
  (forall i e, entries session !! i = Some e ->
     exists e', entries session' !! i = Some e' /\
                timestamp e' = timestamp e /\ prompt e' = prompt e).
Proof.
  destruct c as [p cmd ex|cmd ex out]; simpl.
  - repeat split.
    + rewrite length_app. simpl. lia.
    + intros i e He. exists e. split; [|auto]. now apply lookup_app_l_Some.
  - unfold updateLastSessionEntry.
    destruct (0 <? length (entries session))%nat; simpl.
    + repeat split.
      * rewrite length_alter. lia.
      * intros i e He. rewrite list_lookup_alter.
        destruct (decide (length (entries session) - 1 = i)%nat) as [->|Hne].
        -- rewrite He. simpl. eauto.
        -- eauto.
    + repeat split; [lia|eauto].
Qed.

(** X12.  Calls on a session only append: a sequence of calls keeps the
    identifier and the creation time, makes the log longer by exactly the
    number of [addSessionEntry] calls in it, and keeps the timestamp and
    the prompt of every entry that was there, at its position. *)
Theorem calls_only_append (cs : list Call) (session : SessionData) (sys : Sys) :
  let session' := fst (calls cs session sys) in
  id session' = id session /\
  createdAt session' = createdAt session /\
  length (entries session')
  = (length (entries session) + appends cs)%nat /\
  (forall i e, entries session !! i = Some e ->
     exists e', entries session' !! i = Some e' /\
                timestamp e' = timestamp e /\ prompt e' = prompt e).
Proof.
  revert session sys. induction cs as [|c cs IH]; intros session sys.
  - simpl. repeat split; [lia|eauto].
  - simpl. unfold bind.
    destruct (call_only_appends c session sys) as (Hid & Hcr & Hlen & Hkeep).
    destruct (call c session sys) as [session1 sys1]. simpl in *.
    destruct (IH session1 sys1) as (Hid2 & Hcr2 & Hlen2 & Hkeep2).
    split; [congruence|]. split; [congruence|]. split.
    + rewrite Hlen2, Hlen. destruct c; simpl; lia.
    + intros i e He. destruct (Hkeep i e He) as (e1 & He1 & Ht1 & Hp1).
      destruct (Hkeep2 i e1 He1) as (e2 & He2 & Ht2 & Hp2).
      exists e2. split; [exact He2|]. split; congruence.
Qed.

(** X13.  [updateLastSessionEntry] touches the last entry only.  On a
    log without entries it changes nothing, reads no clock and writes
    no file.  Otherwise the number of entries and every entry but the
    last stay, and the last keeps its timestamp and prompt; its
    [executed] flag becomes the argument, [false] when that is omitted,
    and its command and output change only when one is given. *)
Theorem updateLast_touches_last_only (session : SessionData)
    (command : option string) (executed : option bool)
    (output : option string) (sys : Sys) :
  let session' := fst (updateLastSessionEntry session command executed output sys) in
  let sys' := snd (updateLastSessionEntry session command executed output sys) in
  (entries session = [] -> session' = session /\ sys' = sys) /\
  length (entries session') = length (entries session) /\
  (forall i, (S i < length (entries session))%nat ->
     entries session' !! i = entries session !! i) /\
  (forall e, last (entries session) = Some e ->
     exists e',
       last (entries session') = Some e' /\
       timestamp e' = timestamp e /\ prompt e' = prompt e /\
       Session.executed e' = Some (default false executed) /\
       Session.command e' = from_option Some (Session.command e) command /\
       Session.output e' = from_option Some (Session.output e) output).
Proof.
  intros session' sys'. subst session' sys'.
  unfold updateLastSessionEntry.
  destruct (entries session) as [|e0 l] eqn:Hentries.
  - simpl. split; [auto|]. split; [now rewrite Hentries|].
    split; [intros i Hi; now rewrite Hentries|]. intros e He. discriminate.
  - change (0 <? length (e0 :: l))%nat with true. cbv iota.
    rewrite <- Hentries. simpl fst.
    split; [intros Hnil; rewrite Hnil in Hentries; discriminate|].
    split; [simpl; apply length_alter|].
    split.
    + intros i Hi. simpl. apply list_lookup_alter_ne. lia.
    + intros e He. simpl. rewrite last_lookup in He |- *.
      rewrite length_alter.
      replace (length (entries session) - 1)%nat
        with (pred (length (entries session))) by lia.
      rewrite list_lookup_alter_eq, He. simpl.
      eexists. split; [reflexivity|].
      destruct command, output; simpl; auto.
Qed.

End SessionLogFacts.

(** ** Listing and deleting session files *)
Section SessionFilesFacts.
Import Js JsMore Session SessionFiles MoreNotions.

Lemma insertSorted_perm (x : SessionData) (l : list SessionData) :
  insertSorted newer x l ≡ₚ x :: l.
Proof.
  induction l as [|y l IH]; simpl; [reflexivity|].
  destruct (newer x y <=? 0); [reflexivity|].
  rewrite IH. apply Permutation_swap.
Qed.

Lemma sort_perm (l : list SessionData) : sort newer l ≡ₚ l.
Proof.
  induction l as [|x l IH]; simpl; [reflexivity|].
  unfold sort in *. simpl. rewrite insertSorted_perm. now rewrite IH.
Qed.

Lemma newestFirst_cons (x : SessionData) (l : list SessionData) :
  newestFirst (x :: l) <->
  (forall y, y ∈ l -> lastUpdatedAt y <= lastUpdatedAt x) /\ newestFirst l.
Proof.
  split.
  - intros Hs. split.
    + intros y Hy. apply list_elem_of_lookup in Hy as [j Hj].
      apply (Hs 0%nat (S j) x y); [lia|reflexivity|exact Hj].
    + intros i j a b Hij Hi Hj.
      apply (Hs (S i) (S j) a b); [lia|exact Hi|exact Hj].
  - intros [Hx Hl] [|i] [|j] a b Hij Hi Hj; simpl in *.
    + injection Hi as <-. injection Hj as <-. lia.
    + injection Hi as <-. apply Hx. eapply list_elem_of_lookup_2; eauto.
    + lia.
    + apply (Hl i j a b); [lia|exact Hi|exact Hj].
Qed.

Lemma insertSorted_newestFirst (x : SessionData) (l : list SessionData) :
  newestFirst l -> newestFirst (insertSorted newer x l).
Proof.
  induction l as [|y l IH]; intros Hl; simpl.
  - apply newestFirst_cons. split; [intros y Hy; now apply elem_of_nil in Hy|].
    intros i j a b _ Hi. now rewrite lookup_nil in Hi.
  - apply newestFirst_cons in Hl as [Hy Hl].
    destruct (newer x y <=? 0) eqn:Hc.
    + apply Z.leb_le in Hc. unfold newer in Hc.
      apply newestFirst_cons. split.
      * intros z Hz. apply elem_of_cons in Hz as [->|Hz]; [lia|].
        specialize (Hy z Hz). lia.
      * apply newestFirst_cons. auto.
    + apply Z.leb_gt in Hc. unfold newer in Hc.
      apply newestFirst_cons. split.
      * intros z Hz. rewrite insertSorted_perm in Hz.
        apply elem_of_cons in Hz as [->|Hz]; [lia|auto].
      * auto.
Qed.

Lemma sort_newestFirst (l : list SessionData) : newestFirst (sort newer l).
Proof.
  induction l as [|x l IH]; unfold sort in *; simpl.
  - intros i j a b _ Hi. now rewrite lookup_nil in Hi.
  - now apply insertSorted_newestFirst.
Qed.

Lemma foldl_collect (sys : Sys) (files : list string) (acc : list SessionData) :
  foldl (collect sys) acc files
  = (acc ++ omap (fun file =>
                    if endsWith file ".json"
                    then sessionFiles sys !! removeFirst ".json" file
                    else None) files)%list.
Proof.
  revert acc. induction files as [|file files IH]; intros acc; simpl.
  - now rewrite app_nil_r.
  - rewrite IH. unfold collect, loadSession. simpl.
    destruct (endsWith file ".json"); [|reflexivity].
    destruct (sessionFiles sys !! removeFirst ".json" file); [|reflexivity].
    now rewrite <- app_assoc.
Qed.

(** X14.  [listSessions] returns the sessions newest first: they are
    the sessions that load from the listed names ending in [.json], each
    as often as it is listed, ordered by [lastUpdatedAt] from the latest
    down; names that do not end in [.json] and files that do not load are
    skipped, and nothing is written. *)
Theorem listSessions_newest_first (files : list string) (sys : Sys) :
  let listed := fst (listSessions files sys) in
  newestFirst listed /\
  listed ≡ₚ omap (fun file =>
                    if endsWith file ".json"
                    then sessionFiles sys !! removeFirst ".json" file
                    else None) files /\
  snd (listSessions files sys) = sys.
Proof.
  simpl. split; [apply sort_newestFirst|]. split; [|reflexivity].
  fold newer. rewrite sort_perm, foldl_collect. reflexivity.
Qed.

Lemma endsWith_app (a suffix : string) : endsWith (a ++ suffix) suffix = true.
Proof.
  induction a as [|c a IH].
  - change ("" ++ suffix) with suffix.
    destruct suffix; simpl; [reflexivity|].
    now rewrite Ascii.eqb_refl, String.eqb_refl.
  - rewrite append_cons. simpl. rewrite IH. apply orb_true_r.
Qed.

Lemma removeFirst_dotless (a : string) :
  dotless a = true -> removeFirst ".json" (a ++ ".json") = a.
Proof.
  induction a as [|c a IH]; [reflexivity|].
  simpl dotless. intros Hd. apply andb_true_iff in Hd as [Hc Ha].
  rewrite append_cons.
  change (removeFirst ".json" (String c (a ++ ".json")))
    with (if String.prefix ".json" (String c (a ++ ".json"))
          then dropChars (String.length ".json") (String c (a ++ ".json"))
          else String c (removeFirst ".json" (a ++ ".json"))).
  change (String.prefix ".json" (String c (a ++ ".json")))
    with (if ascii_dec "." c then String.prefix "json" (a ++ ".json") else false).
  destruct (ascii_dec "." c) as [<-|Hne]; [discriminate|].
  now rewrite (IH Ha).
Qed.

(** X15.  A session stored under an identifier without a dot, as the
    identifiers that [createSession] draws are, is found by
    [listSessions] whenever its file name is among the listed names. *)
Theorem listSessions_finds_session (files : list string) (sys : Sys)
    (sessionId : string) (session : SessionData) :
  dotless sessionId = true ->
  (sessionId ++ ".json") ∈ files ->
  sessionFiles sys !! sessionId = Some session ->
  session ∈ fst (listSessions files sys).
Proof.
  intros Hd Hin Hfile. simpl. fold newer.
  rewrite sort_perm, foldl_collect. simpl.
  apply list_elem_of_omap. exists (sessionId ++ ".json").
  split; [exact Hin|].
  now rewrite endsWith_app, removeFirst_dotless.
Qed.


End SessionFilesFacts.

(** ** More on the rendered context *)
Section ContextBounds.
Import Js Session Notions MoreNotions.

Lemma length_append (a b : string) :
  String.length (a ++ b) = (String.length a + String.length b)%nat.
Proof.
  induction a as [|c a IH]; [reflexivity|].
  rewrite append_cons. simpl. now rewrite IH.
Qed.

Lemma replace_newlines_length (s : string) :
  (String.length (replace_newlines (nl ++ "      ") s) <= 7 * String.length s)%nat.
Proof.
  induction s as [|c s IH]; simpl; [lia|].
  destruct (Ascii.eqb c "010"); [|simpl; lia].
  rewrite length_append. change (String.length (nl ++ "      ")) with 7%nat. lia.
Qed.

Lemma limitedOutput_length (o : string) :
  (String.length (limitedOutput o) <= 522)%nat.
Proof.
  unfold limitedOutput, maxOutputLength.
  destruct (500 <? String.length o)%nat eqn:E.
  - rewrite length_append, substring_0_length.
    change (String.length "... [output truncated]") with 22%nat. lia.
  - apply Nat.ltb_ge in E. lia.
Qed.

(** X17.  The size of a rendered block does not depend on the size of
    the output: a block is at most 3710 characters longer than its
    number, its prompt and its command together, since at most 522
    characters of output are kept and each line feed among them becomes
    seven characters. *)
Theorem block_size_bounded (entry : SessionEntry) (index : nat) :
  (String.length (entryBlock entry index)
   <= String.length (pretty (index + 1)%nat)
      + String.length (prompt entry)
      + String.length (default "" (command entry))
      + 3710)%nat.
Proof.
  unfold entryBlock.
  pose proof (replace_newlines_length
                (limitedOutput (default "" (output entry)))) as Hr.
  pose proof (limitedOutput_length (default "" (output entry))) as Hl.
  destruct (truthy_opt (command entry));
    [destruct (truthy_opt (output entry))|];
    destruct (default false (executed entry));
    repeat rewrite length_append;
    change (String.length nl) with 1%nat;
    change (String.length "[") with 1%nat;
    change (String.length "] User: ") with 8%nat;
    change (String.length "    Command: ") with 13%nat;
    change (String.length "    Executed: ") with 14%nat;
    change (String.length "    Output: ") with 12%nat;
    change (String.length "Yes") with 3%nat;
    change (String.length "No") with 2%nat;
    change (String.length "") with 0%nat;
    lia.
Qed.

Lemma slice_from (A : Type) (l : list A) (start : Z) :
  0 <= start -> slice start l = drop (Z.to_nat start) l.
Proof.
  intros Hs. unfold slice. destruct (start <? 0) eqn:E; [lia|].
  destruct (Z.le_ge_cases start (Z.of_nat (length l))) as [Hle|Hge].
  - now rewrite Z.min_l.
  - rewrite Z.min_r by exact Hge. rewrite Nat2Z.id.
    rewrite drop_all. symmetry. apply drop_ge. lia.
Qed.

(** X18.  With a limit of zero or less, [getSessionContext] does not
    render the last entries but all entries after the first [-limit]:
    every entry for limit 0, none once [-limit] reaches the number of
    entries. *)
Theorem context_of_nonpositive_limit (session : SessionData) (limit : Z) :
  limit <= 0 ->
  let skipped := Z.to_nat (- limit) in
  renderedBlocks session limit
  = imap (fun index entry => entryBlock entry index)
         (drop skipped (entries session)) /\
  length (renderedBlocks session limit)
  = (length (entries session) - skipped)%nat /\
  getSessionContext session (Some limit)
  = ("Previous commands:" ++ nl ++ nl) ++ join (renderedBlocks session limit).
Proof.
  intros Hl skipped.
  assert (Hb : renderedBlocks session limit
               = imap (fun index entry => entryBlock entry index)
                      (drop skipped (entries session))).
  { unfold renderedBlocks. now rewrite slice_from by lia. }
  split; [exact Hb|]. split; [|apply getSessionContext_blocks].
  rewrite Hb, length_imap, length_drop. reflexivity.
Qed.

End ContextBounds.

(** ** More on polling and on start-up *)
Section StartupFacts.
Import Js Auth Notions MoreNotions.

Lemma round_granted (deviceCode : string) (pollInterval : Z) (r : Exchange) :
  round deviceCode pollInterval r
  = match granted r with
    | Some token => ([Fetch deviceCode], Some token)
    | None => ([Fetch deviceCode; Sleep pollInterval], None)
    end.
Proof.
  destruct r as [m|st txt|m|[t|]]; simpl; try reflexivity.
  destruct (truthy t); reflexivity.
Qed.

(** X19.  The loop sees nothing of an exchange but the token it grants:
    a rejected fetch, a status outside 200..299, a body that does not
    parse, and an answer with no or an empty access token all make it
    wait and go on alike, so two servers that grant the same tokens at
    the same attempts give the same run.  No answer ends the loop
    without a token. *)
Theorem polling_sees_only_granted_tokens (server server' : nat -> Exchange)
    (deviceCode : string) (interval : Z) (fuel : nat) :
  (forall k, granted (server k) = granted (server' k)) ->
  pollForToken fuel server deviceCode interval
  = pollForToken fuel server' deviceCode interval.
Proof.
  intros Hsame. unfold pollForToken. generalize 0%nat as attempt.
  induction fuel as [|fuel IH]; intros attempt; [reflexivity|].
  simpl. rewrite !round_granted, Hsame.
  destruct (granted (server' attempt)); [reflexivity|].
  now rewrite IH.
Qed.

Lemma getToken_saveToken (token : string) (disk : Storage.Disk) :
  token <> "" -> Storage.getToken (Storage.saveToken token disk) = Some token.
Proof.
  intros Hne. apply truthy_true in Hne.
  unfold Storage.saveToken, Storage.saveTokens, Storage.getToken.
  destruct disk as [[raw|data]|]; simpl; now rewrite Hne.
Qed.

Lemma pollForToken_token_nonempty (fuel : nat) (server : nat -> Exchange)
    (deviceCode : string) (interval : Z) (events : list Event) (token : string) :
  pollForToken fuel server deviceCode interval = (events, Some token) ->
  token <> "".
Proof.
  unfold pollForToken. intros Hrun.
  pose proof (pollLoop_spec server deviceCode (interval * 1000) fuel 0) as Hs.
  rewrite Hrun in Hs. destruct Hs as (k & _ & [_ Hne] & _). exact Hne.
Qed.

(** X20.  Whenever [main] hands over to the REPL, the token it hands
    over is the identity token that the token file now holds, so that
    [getToken] reads it back, and the session it hands over is a new
    one: without entries, under the identifier drawn, and saved. *)
Theorem repl_token_is_stored (fuel : nat) (answer : DeviceFlow.Answer)
    (server : nat -> Exchange) (sessionId : string) (disk : Storage.Disk)
    (sys : Session.Sys) (token : string) (session : Session.SessionData) :
  let run := Index.main fuel answer server sessionId disk sys in
  Index.ending run = Index.StartRepl token session ->
  Storage.getToken (Index.disk run) = Some token /\
  Session.entries session = [] /\
  Session.id session = sessionId /\
  Session.sessionFiles (Index.sys run) !! sessionId = Some session.
Proof.
  unfold Index.main.
  destruct (Storage.getToken disk) as [t|] eqn:Hget.
  - simpl. intros [= <- <-]. simpl.
    split; [exact Hget|]. repeat split. apply lookup_insert_eq.
  - destruct (DeviceFlow.getDeviceCode answer) as [dc|e]; [|discriminate].
    destruct (pollForToken fuel server (DeviceFlow.device_code dc)
                (DeviceFlow.interval dc)) as [polled [t|]] eqn:Hpoll;
      [|discriminate].
    simpl. intros [= <- <-]. simpl.
    split;
      [exact (getToken_saveToken t disk
                (pollForToken_token_nonempty _ _ _ _ _ _ Hpoll))|].
    repeat split. apply lookup_insert_eq.
Qed.

Lemma main_first_event (fuel : nat) (answer : DeviceFlow.Answer)
    (server : nat -> Exchange) (sessionId : string) (disk : Storage.Disk)
    (sys : Session.Sys) :
  Storage.getToken disk = None ->
  head (Index.events (Index.main fuel answer server sessionId disk sys))
  = Some Index.DeviceCodeRequest.
Proof.
  intros Hget. unfold Index.main. rewrite Hget.
  destruct (DeviceFlow.getDeviceCode answer) as [dc|e]; [|reflexivity].
  destruct (pollForToken fuel server (DeviceFlow.device_code dc)
              (DeviceFlow.interval dc)) as [polled [t|]]; reflexivity.
Qed.

(** X21.  [main] goes to the network exactly when the token file holds
    no identity token: with one it issues no request at all, neither for
    a device code nor for a token, leaves the token file as it is and
    hands that token to the REPL; without one its first request is the
    one for a device code. *)
Theorem main_requests_iff_no_token (fuel : nat) (answer : DeviceFlow.Answer)
    (server : nat -> Exchange) (sessionId : string) (disk : Storage.Disk)
    (sys : Session.Sys) :
  let run := Index.main fuel answer server sessionId disk sys in
  (Index.events run = [] <-> is_Some (Storage.getToken disk)) /\
  (forall token, Storage.getToken disk = Some token ->
     Index.disk run = disk /\
     Index.ending run
     = Index.StartRepl token (fst (Session.createSession sessionId sys))) /\
  (Storage.getToken disk = None ->
   head (Index.events run) = Some Index.DeviceCodeRequest).
Proof.
  intros run. subst run.
  pose proof (main_first_event fuel answer server sessionId disk sys) as Hfirst.
  destruct (Storage.getToken disk) as [t|] eqn:Hget.
  - unfold Index.main. rewrite Hget. simpl.
    split; [split; eauto|]. split; [|discriminate].
    intros token [= <-]. auto.
  - specialize (Hfirst eq_refl).
    split; [|split; [discriminate|auto]].
    split.
    + intros Hnil. rewrite Hnil in Hfirst. discriminate.
    + intros [x Hx]. discriminate.
Qed.

(** X22.  Without an identity token, [main] asks for a device code
    first.  If that request fails (the fetch is rejected, the status is
    outside 200..299, or the body does not parse) [main] exits with the
    token file and the sessions untouched and without polling.  Once the
    device code is there, [main] never exits by itself: it hands over to
    the REPL or is still polling, whatever the answers are and whatever
    [expires_in] says, and while it polls the token file and the sessions
    stay untouched. *)
Theorem main_without_token (fuel : nat) (answer : DeviceFlow.Answer)
    (server : nat -> Exchange) (sessionId : string) (disk : Storage.Disk)
    (sys : Session.Sys) :
  Storage.getToken disk = None ->
  let run := Index.main fuel answer server sessionId disk sys in
  ((forall deviceCode,
       DeviceFlow.getDeviceCode answer <> Copilot.Returns deviceCode) ->
   run = Index.mkRun Index.Exit1 disk sys [Index.DeviceCodeRequest]) /\
  (forall deviceCode,
     DeviceFlow.getDeviceCode answer = Copilot.Returns deviceCode ->
     Index.ending run <> Index.Exit1 /\
     (Index.ending run = Index.StillPolling ->
      Index.disk run = disk /\ Index.sys run = sys) /\
     Index.events run
     = Index.DeviceCodeRequest
       :: (Index.Polling
             <$> fst (pollForToken fuel server
                        (DeviceFlow.device_code deviceCode)
                        (DeviceFlow.interval deviceCode)))).
Proof.
  intros Hget run. subst run. unfold Index.main. rewrite Hget. split.
  - intros Hfail.
    destruct (DeviceFlow.getDeviceCode answer) as [dc|e]; [|reflexivity].
    now destruct (Hfail dc).
  - intros dc ->.
    destruct (pollForToken fuel server (DeviceFlow.device_code dc)
                (DeviceFlow.interval dc)) as [polled [t|]]; simpl.
    + split; [discriminate|]. split; [discriminate|reflexivity].
    + split; [discriminate|]. auto.
Qed.

End StartupFacts.

(** ** The further properties at concrete inputs *)
Section MoreInstances.
Import Js Notions MoreNotions.

(** X2 on a missing token file and an expiry in epoch seconds. *)
Lemma saved_service_token_is_read_back_witness :
  Storage.getCopilotToken (H := Examples.oneDate)
    (Storage.saveTokens "gho_identity" (Some "tid=new")
       (Some (Storage.ExpiryNumber 2000000000)) None)
  = Some ("tid=new", Some 2000000000000).
Proof.
  apply (saved_service_token_is_read_back (H := Examples.oneDate)
           "gho_identity" "tid=new" (Some (Storage.ExpiryNumber 2000000000)) None).
  discriminate.
Defined.

(** X4: the token refreshed on [Examples.today] is reused a day later. *)
Lemma refreshed_token_is_reused_witness :
  let w1 :=
    snd (Copilot.getCopilotToken (H := Examples.oneDate)
           (Examples.network 200 "tid=new" 200) "gho_identity"
           (Copilot.mkWorld Examples.expired Examples.today [])) in
  Copilot.getCopilotToken (H := Examples.oneDate)
    (Examples.network 500 "" 200) "gho_identity"
    (Copilot.mkWorld (Copilot.disk w1) (Examples.today + 86400000) [])
  = (Copilot.Returns "tid=new",
     Copilot.mkWorld (Copilot.disk w1) (Examples.today + 86400000) []).
Proof.
  apply (refreshed_token_is_reused (H := Examples.oneDate)
           (Examples.network 200 "tid=new" 200) (Examples.network 500 "" 200)
           "gho_identity" "gho_identity"
           (Copilot.mkWorld Examples.expired Examples.today [])
           200 (Examples.tokenReply "tid=new")
           (Storage.mkTokenStorage (Some "gho_identity") (Some "tid=old")
              (Some (Storage.ExpiryNumber 1600000000)) ∅)
           "gho_identity" 1893456000000 (Examples.today + 86400000) []).
  - intros token (data & e & ms & Hd & _ & _ & He & _ & Hms & Hlt).
    injection Hd as <-. injection He as <-. injection Hms as <-.
    simpl in Hlt. unfold Examples.today in Hlt. lia.
  - reflexivity.
  - reflexivity.
  - reflexivity.
  - reflexivity.
  - discriminate.
  - discriminate.
  - reflexivity.
  - reflexivity.
  - unfold Examples.today. lia.
Defined.

(** X6 on a completion endpoint that answers 400. *)
Lemma shown_errors_are_fixed_witness :
  userFacing
    (Copilot.Error
       "Unable to get command suggestion from GitHub Copilot. Please try again.").
Proof.
  apply (shown_errors_are_fixed (H := Examples.oneDate)
           (Examples.network 200 "tid=new" 400) "list files" "gho_identity" None
           (Copilot.mkWorld Examples.cached Examples.today [])
           (Copilot.mkWorld Examples.cached Examples.today
              [Copilot.PostCompletion "tid=cached"
                 (Copilot.requestFor "list files" None)])).
  vm_compute. reflexivity.
Defined.

(** X7 on a first choice of a space, a line feed and a no-break space. *)
Lemma blank_suggestion_is_an_error_witness :
  Copilot.getCommandSuggestion (H := Examples.oneDate)
    MoreExamples.blankChoice "list files" "gho_identity" None
    (Copilot.mkWorld Examples.cached Examples.today [])
  = (Copilot.Throws
       (Copilot.Error "Copilot was unable to generate a command for your request. Please try rephrasing."),
     Copilot.mkWorld Examples.cached Examples.today
       [Copilot.PostCompletion "tid=cached"
          (Copilot.requestFor "list files" None)]).
Proof.
  apply (blank_suggestion_is_an_error (H := Examples.oneDate)
           MoreExamples.blankChoice "list files" "gho_identity" None
           (Copilot.mkWorld Examples.cached Examples.today [])
           (Copilot.mkWorld Examples.cached Examples.today [])
           "tid=cached" 200
           (Copilot.mkResponse [MoreExamples.blankText])).
  - vm_compute. reflexivity.
  - reflexivity.
  - reflexivity.
  - intros c [= <-]. vm_compute. reflexivity.
Defined.

(** X8 on a completion endpoint that answers with one command. *)
Lemma returned_suggestion_is_fresh_witness :
  "ls -la" <> "" /\
  exists t,
    last [Copilot.PostCompletion "tid=cached"
            (Copilot.requestFor "list files" None)]
    = Some (Copilot.PostCompletion t (Copilot.requestFor "list files" None)).
Proof.
  apply (returned_suggestion_is_fresh (H := Examples.oneDate)
           (Examples.network 200 "tid=new" 200) "list files" "gho_identity" None
           (Copilot.mkWorld Examples.cached Examples.today [])
           (Copilot.mkWorld Examples.cached Examples.today
              [Copilot.PostCompletion "tid=cached"
                 (Copilot.requestFor "list files" None)])
           "ls -la").
  vm_compute. reflexivity.
Defined.

(** X9 on a token endpoint that answers 429. *)
Lemma broker_failure_skips_completion_witness :
  exists e d,
    Copilot.getCommandSuggestion (H := Examples.oneDate)
      (Examples.network 429 "" 200) "list files" "gho_identity" None
      (Copilot.mkWorld Examples.expired Examples.today [])
    = (Copilot.Throws e,
       Copilot.mkWorld d Examples.today [Copilot.GetToken "gho_identity"])
    /\ e = Copilot.Error
             "Unable to get command suggestion from GitHub Copilot. Please try again."
    /\ d = Examples.expired.
Proof.
  destruct (broker_failure_skips_completion (H := Examples.oneDate)
              (Examples.network 429 "" 200) "list files" "gho_identity" None
              (Copilot.mkWorld Examples.expired Examples.today [])
              429 (Copilot.JsonData (Examples.tokenReply "")))
    as (e & d & Hrun & _ & Hother).
  - intros token (data & e & ms & Hd & _ & _ & He & _ & Hms & Hlt).
    injection Hd as <-. injection He as <-. injection Hms as <-.
    simpl in Hlt. unfold Examples.today in Hlt. lia.
  - reflexivity.
  - reflexivity.
  - destruct Hother as [-> ->]; [lia|lia|].
    do 2 eexists. split; [exact Hrun|]. split; reflexivity.
Defined.

(** X15 on the listing of two sessions. *)
Lemma listSessions_finds_session_witness :
  MoreExamples.latest
  ∈ fst (SessionFiles.listSessions MoreExamples.listing MoreExamples.twoSessions).
Proof.
  apply (listSessions_finds_session MoreExamples.listing
           MoreExamples.twoSessions "b" MoreExamples.latest).
  - reflexivity.
  - unfold MoreExamples.listing.
    change ("b" ++ ".json") with "b.json".
    do 3 apply list_elem_of_further. apply list_elem_of_here.
  - reflexivity.
Defined.

(** X18 on three entries and limit 0: all three are rendered. *)
Lemma context_of_nonpositive_limit_witness :
  length (renderedBlocks Examples.threeEntries 0) = 3%nat.
Proof.
  destruct (context_of_nonpositive_limit Examples.threeEntries 0)
    as (_ & Hlength & _); [lia|].
  exact Hlength.
Defined.

(** X19: failures of three kinds count as three pending answers. *)
Lemma polling_sees_only_granted_tokens_witness :
  Auth.pollForToken 10 MoreExamples.failingThenGranted "device-code" 5
  = Auth.pollForToken 10 Examples.grantedFourth "device-code" 5.
Proof.
  apply (polling_sees_only_granted_tokens MoreExamples.failingThenGranted
           Examples.grantedFourth "device-code" 5 10).
  intros k. destruct k as [|[|[|[|k]]]]; reflexivity.
Defined.

(** X20 on a first start: the polled token is in the token file. *)
Lemma repl_token_is_stored_witness :
  Storage.getToken
    (Index.disk (Index.main 10 MoreExamples.codeGranted Examples.grantedFourth
                   "session-1" None Examples.ticking))
  = Some "gho_fourth".
Proof.
  apply (repl_token_is_stored 10 MoreExamples.codeGranted Examples.grantedFourth
           "session-1" None Examples.ticking "gho_fourth"
           (Session.mkSession "session-1" 0 0 [])).
  reflexivity.
Defined.

(** X22 on a device-code endpoint that is down. *)
Lemma main_without_token_witness :
  Index.main 10 MoreExamples.codeRefused Examples.grantedFourth
    "session-1" None Examples.ticking
  = Index.mkRun Index.Exit1 None Examples.ticking [Index.DeviceCodeRequest].
Proof.
  apply (proj1 (main_without_token 10 MoreExamples.codeRefused
                  Examples.grantedFourth "session-1" None Examples.ticking
                  eq_refl)).
  intros deviceCode. discriminate.
Defined.

(** Deleting the file that does not parse answers [true], and leaves
    the two sessions. *)
Example deleting_a_broken_file :
  fst (SessionFiles.deleteSession "broken" MoreExamples.withBrokenFile) = true
  /\ snd (SessionFiles.deleteSession "broken" MoreExamples.withBrokenFile)
     = SessionFiles.mkFolder MoreExamples.twoSessions ∅
  /\ fst (SessionFiles.deleteSession "missing" MoreExamples.withBrokenFile)
     = false.
Proof. split; [|split]; vm_compute; reflexivity. Qed.

(** The listing of the two sessions: the later one first, the file that
    is no session and the file that does not load left out. *)
Example listing_of_two_sessions :
  fst (SessionFiles.listSessions MoreExamples.listing MoreExamples.twoSessions)
  = [MoreExamples.latest; MoreExamples.older].
Proof. vm_compute. reflexivity. Qed.

End MoreInstances.

(** ** Creation time, and expiries that are no dates *)
Section FurtherFacts.
Import Js Session Notions MoreNotions.

Lemma clock_monotone (c : nat -> Z) (i j : nat) :
  (forall k, c k <= c (S k)) -> (i <= j)%nat -> c i <= c j.
Proof.
  intros Hc Hij. induction Hij as [|j Hij IH]; [lia|].
  specialize (Hc j). lia.
Qed.

Lemma call_after_creation (c : Call) (session : SessionData) (sys : Sys) :
  (forall k, clock sys k <= clock sys (S k)) ->
  createdAt session <= clock sys (ticks sys) ->
  (forall e, e ∈ entries session -> createdAt session <= timestamp e) ->
  clock (snd (call c session sys)) = clock sys /\
  (ticks sys <= ticks (snd (call c session sys)))%nat /\
  createdAt (fst (call c session sys)) = createdAt session /\
  (forall e, e ∈ entries (fst (call c session sys)) ->
             createdAt session <= timestamp e).
Proof.
  intros Hmono Hnow Hall.
  destruct c as [p cmd ex|cmd ex out]; simpl.
  - split; [reflexivity|]. split; [lia|]. split; [reflexivity|].
    intros e He. apply elem_of_app in He as [He|He]; [auto|].
    apply list_elem_of_singleton in He as ->. exact Hnow.
  - unfold updateLastSessionEntry.
    destruct (0 <? length (entries session))%nat; simpl.
    + split; [reflexivity|]. split; [lia|]. split; [reflexivity|].
      intros e He. apply elem_of_alter_timestamp in He as (e' & He' & <-).
      auto.
    + auto.
Qed.

Lemma calls_after_creation (cs : list Call) (session : SessionData) (sys : Sys) :
  (forall k, clock sys k <= clock sys (S k)) ->
  createdAt session <= clock sys (ticks sys) ->
  (forall e, e ∈ entries session -> createdAt session <= timestamp e) ->
  createdAt (fst (calls cs session sys)) = createdAt session /\
  (forall e, e ∈ entries (fst (calls cs session sys)) ->
             createdAt session <= timestamp e).
Proof.
  revert session sys. induction cs as [|c cs IH]; intros session sys Hmono Hnow Hall.
  - simpl. auto.
  - simpl. unfold bind.
    destruct (call_after_creation c session sys Hmono Hnow Hall)
      as (Hclk & Hticks & Hcr & Hall').
    destruct (call c session sys) as [session1 sys1]. simpl in *.
    rewrite <- Hcr in Hall' |- *. apply IH.
    + now rewrite Hclk.
    + rewrite Hclk, Hcr.
      pose proof (clock_monotone (clock sys) _ _ Hmono Hticks). lia.
    + exact Hall'.
Qed.

(** X23.  Under a clock that never goes back, a session that
    [createSession] has made keeps its creation time, the reading of the
    clock at creation, through every sequence of calls, and every entry
    is stamped between the creation time and [lastUpdatedAt]. *)
Theorem entries_stamped_after_creation (cs : list Call) (sessionId : string)
    (sys : Sys) :
  (forall k, clock sys k <= clock sys (S k)) ->
  let created := createSession sessionId sys in
  let session' := fst (calls cs (fst created) (snd created)) in
  createdAt session' = clock sys (ticks sys) /\
  (forall e, e ∈ entries session' ->
     createdAt session' <= timestamp e /\ timestamp e <= lastUpdatedAt session').
Proof.
  intros Hmono created session'.
  destruct (calls_after_creation cs (fst created) (snd created)) as [Hcr Hall].
  - exact Hmono.
  - simpl. apply Hmono.
  - intros e He. now apply elem_of_nil in He.
  - destruct (calls_stamped cs (fst created) (snd created) Hmono
                (createSession_stamped sessionId sys)) as (_ & _ & Hlast).
    fold session' in Hcr, Hall, Hlast.
    split; [exact Hcr|]. intros e He. rewrite Hcr. split; [|auto].
    apply (Hall e He).
Qed.

End FurtherFacts.

Section ExpiryFacts.
Import Js Copilot Notions.
Context `{DateParser}.

(** X24.  A cached service token whose stored expiry is no date is
    never used: when the expiry is a string that the date parser
    rejects, the number 0, or a number of seconds beyond the range of
    dates, the broker goes to the network at every call, whatever the
    time. *)
Theorem undated_token_is_never_used (net : Network) (a : string) (w : World)
    (data : Storage.TokenStorage) (e : Storage.Expiry) :
  disk w = Some (Storage.Json data) ->
  Storage.copilotTokenExpiresAt data = Some e ->
  (e = Storage.ExpiryNumber 0 \/
   (exists n, e = Storage.ExpiryNumber n /\ 8640000000000000 < Z.abs (n * 1000)) \/
   (exists s, e = Storage.ExpiryString s /\ date_parse s = None)) ->
  exists r d,
    getCopilotToken net a w = (r, mkWorld d (now w) (sent w ++ [GetToken a])).
Proof.
  intros Hdisk He Hcases.
  rewrite getCopilotToken_miss; [apply fetchNewToken_one_call|].
  intros token (data' & e' & ms & Hd & _ & _ & He' & Htruthy & Hdate & _).
  rewrite Hdisk in Hd. injection Hd as <-.
  rewrite He in He'. injection He' as <-.
  destruct Hcases as [->|[(n & -> & Hn)|(s & -> & Hs)]].
  - discriminate.
  - simpl in Hdate. unfold date_of_millis in Hdate.
    destruct (Z.abs (n * 1000) <=? 8640000000000000) eqn:E; [lia|discriminate].
  - simpl in Hdate. congruence.
Qed.

End ExpiryFacts.

Section FurtherInstances.
Import Js Notions MoreNotions.

(** X23 on three calls after [createSession]. *)
Lemma entries_stamped_after_creation_witness :
  let created := Session.createSession "session-1" Examples.ticking in
  let session' :=
    fst (Session.calls
           [Session.Append "list files" None None;
            Session.UpdateLast (Some "ls -la") (Some true) (Some "file1");
            Session.Append "print the date" (Some "date") None]
           (fst created) (snd created)) in
  Session.createdAt session' = 0 /\
  (forall e, e ∈ Session.entries session' ->
     Session.createdAt session' <= Session.timestamp e /\
     Session.timestamp e <= Session.lastUpdatedAt session').
Proof.
  apply (entries_stamped_after_creation _ "session-1" Examples.ticking).
  intros k. simpl. lia.
Defined.

(** X24 on a token stored with an expiry that does not parse. *)
Lemma undated_token_is_never_used_witness :
  exists r d,
    Copilot.getCopilotToken (H := Examples.oneDate)
      (Examples.network 200 "tid=new" 200) "gho_identity"
      (Copilot.mkWorld
         (Some (Storage.Json
                  (Storage.mkTokenStorage (Some "gho_identity") (Some "tid=old")
                     (Some (Storage.ExpiryString "next week")) ∅)))
         Examples.today [])
    = (r, Copilot.mkWorld d Examples.today [Copilot.GetToken "gho_identity"]).
Proof.
  apply (undated_token_is_never_used (H := Examples.oneDate)
           (Examples.network 200 "tid=new" 200) "gho_identity"
           (Copilot.mkWorld
              (Some (Storage.Json
                       (Storage.mkTokenStorage (Some "gho_identity") (Some "tid=old")
                          (Some (Storage.ExpiryString "next week")) ∅)))
              Examples.today [])
           (Storage.mkTokenStorage (Some "gho_identity") (Some "tid=old")
              (Some (Storage.ExpiryString "next week")) ∅)
           (Storage.ExpiryString "next week")).
  - reflexivity.
  - reflexivity.
  - right. right. eexists. split; reflexivity.
Defined.

End FurtherInstances.
